(** * bin_info: the libbfd based binary loader (src/includes/loader.cpp)

    A shallow embedding of [open_bfd], [load_symbols_bfd], [load_binary_bfd]
    and [load_binary].  The calls into libbfd and libc are recorded in a
    chronological trace so that properties about initialisation, handle
    release and diagnostics can be stated on it.

    The source does not compile as it stands (line 25 [fprinitf], line 44
    [bfd_target_unkown_flavour], line 74 [asymobl], line 100 [flag], line 155
    [name], lines 161 and 176 [bfd ->]).  Each of these is read as the
    identifier it misspells: [fprintf], [bfd_target_unknown_flavour],
    [asymbol], [flags], [fname], [bfd_h ->] and [bin ->]. *)

From Stdlib Require Import ZArith List String Bool Lia.
Import ListNotations.
Open Scope string_scope.
Open Scope list_scope.
Open Scope Z_scope.

(** ** The part of bfd.h the loader uses *)

(** [enum bfd_flavour]: the three enumerators the loader names; every other
    enumerator of the header (aout, msdos, mach_o, ...) is [bfd_target_other_flavour]. *)
Inductive bfd_flavour : Type :=
| bfd_target_unknown_flavour
| bfd_target_elf_flavour
| bfd_target_coff_flavour
| bfd_target_other_flavour (code : Z).

(** [bfd_target], reached through [bfd_h -> xvec]. *)
Record bfd_target : Type := {
  target_name : string;
  target_flavour : bfd_flavour
}.

(** [bfd_arch_info_type]: [mach] is the raw machine code. *)
Record bfd_arch_info_type : Type := {
  mach : Z;
  printable_name : string
}.

(** [asymbol]: [sym_value] is what [bfd_asymbol_value] reports for the entry. *)
Record asymbol : Type := {
  sym_name : string;
  sym_flags : Z;
  sym_value : Z
}.

(** ** The part of loader.h the loader uses *)

Inductive SymbolType : Type := SYM_TYPE_UKN | SYM_TYPE_FUN.

Record Symbol : Type := {
  s_type : SymbolType;
  s_name : string;
  s_addr : Z
}.

(** Modelled from the spec: loader.h is not part of the sources; a Section has
    a name, a start address, a size in bytes and permission flags. *)
Record Section : Type := {
  sec_name : string;
  sec_start : Z;
  sec_size : Z;
  sec_perms : Z
}.

(** [Binary::BinaryType] and [Binary::BinaryArch].  The loader assigns only
    [BIN_TYPE_ELF], [BIN_TYPE_PE] and [ARCH_X86]; [BIN_TYPE_AUTO] and
    [ARCH_NONE] stand for the value of a Binary nobody has loaded yet. *)
Inductive BinaryType : Type := BIN_TYPE_AUTO | BIN_TYPE_ELF | BIN_TYPE_PE.
Inductive BinaryArch : Type := ARCH_NONE | ARCH_X86.

Record Binary : Type := {
  filename : string;
  type : BinaryType;
  type_str : string;
  arch : BinaryArch;
  arch_str : string;
  bits : Z;
  entry : Z;
  sections : list Section;
  symbols : list Symbol
}.

(** Field assignments through [bin ->]. *)
Definition set_filename (v : string) (b : Binary) : Binary :=
  Build_Binary v (type b) (type_str b) (arch b) (arch_str b) (bits b) (entry b) (sections b) (symbols b).
Definition set_type (v : BinaryType) (b : Binary) : Binary :=
  Build_Binary (filename b) v (type_str b) (arch b) (arch_str b) (bits b) (entry b) (sections b) (symbols b).
Definition set_type_str (v : string) (b : Binary) : Binary :=
  Build_Binary (filename b) (type b) v (arch b) (arch_str b) (bits b) (entry b) (sections b) (symbols b).
Definition set_arch (v : BinaryArch) (b : Binary) : Binary :=
  Build_Binary (filename b) (type b) (type_str b) v (arch_str b) (bits b) (entry b) (sections b) (symbols b).
Definition set_arch_str (v : string) (b : Binary) : Binary :=
  Build_Binary (filename b) (type b) (type_str b) (arch b) v (bits b) (entry b) (sections b) (symbols b).
Definition set_bits (v : Z) (b : Binary) : Binary :=
  Build_Binary (filename b) (type b) (type_str b) (arch b) (arch_str b) v (entry b) (sections b) (symbols b).
Definition set_entry (v : Z) (b : Binary) : Binary :=
  Build_Binary (filename b) (type b) (type_str b) (arch b) (arch_str b) (bits b) v (sections b) (symbols b).
Definition set_sections (v : list Section) (b : Binary) : Binary :=
  Build_Binary (filename b) (type b) (type_str b) (arch b) (arch_str b) (bits b) (entry b) v (symbols b).
Definition set_symbols (v : list Symbol) (b : Binary) : Binary :=
  Build_Binary (filename b) (type b) (type_str b) (arch b) (arch_str b) (bits b) (entry b) (sections b) v.

(** Conversion to [uint64_t], the type of [Binary::entry] and [Symbol::addr]. *)
Definition to_uint64 (x : Z) : Z := x mod 2 ^ 64.

(** ** An open bfd handle

    A [bfd] value stands for what libbfd answers about one opened file:
    the outcome of [bfd_check_format (_, bfd_object)], the target vector,
    the start address, the architecture record, the byte size reported for
    the static symbol table and the table itself ([None] when
    [bfd_canonicalize_symtab] reports an error).  The last three fields are
    what the dynamic symbol table and the section table answer; only the
    two helpers that are not part of the sources read them. *)
Record bfd : Type := {
  is_bfd_object : bool;
  xvec : bfd_target;
  start_address : Z;
  arch_info : bfd_arch_info_type;
  symtab_upper_bound : Z;
  symtab : option (list asymbol);
  dynamic_symtab_upper_bound : Z;
  dynamic_symtab : option (list asymbol);
  section_table : option (list Section)
}.

Definition bfd_get_flavour (h : bfd) : bfd_flavour := target_flavour (xvec h).
Definition bfd_get_start_address (h : bfd) : Z := start_address h.
Definition bfd_get_arch_info (h : bfd) : bfd_arch_info_type := arch_info h.
Definition bfd_get_symtab_upper_bound (h : bfd) : Z := symtab_upper_bound h.
Definition bfd_asymbol_value (s : asymbol) : Z := sym_value s.

(** [bfd_canonicalize_symtab] fills the table and returns the number of
    entries it wrote, or a negative number. *)
Definition bfd_canonicalize_symtab (h : bfd) : Z * list asymbol :=
  match symtab h with
  | Some tab => (Z.of_nat (List.length tab), tab)
  | None => (-1, [])
  end.

Definition is_unknown_flavour (f : bfd_flavour) : bool :=
  match f with bfd_target_unknown_flavour => true | _ => false end.

(** ** The process state and the calls into libbfd and libc *)

(** One constructor for each [fprintf (stderr, ...)] of the loader, with the
    strings the format receives ([bfd_errmsg] is left out). *)
Inductive message : Type :=
| msg_failed_to_open (fname : string)
| msg_not_an_executable (fname : string)
| msg_unrecognized_format (fname : string)
| msg_failed_to_read_symtab
| msg_out_of_memory
| msg_failed_to_read_symbols_table
| msg_unsupported_binary_type (name : string)
| msg_unsupported_architecture (name : string).

Inductive event : Type :=
| ev_bfd_init
| ev_bfd_openr (fname : string) (result : option bfd)
| ev_bfd_set_error_no_error
| ev_bfd_close (h : bfd)
| ev_malloc (n : Z) (ok : bool)
| ev_free
| ev_stderr (m : message).

(** [bfd_init_flag] is the [static int] of [open_bfd]; [trace] lists the
    calls made so far, oldest first. *)
Record World : Type := {
  bfd_init_flag : Z;
  trace : list event
}.

(** The state of a process that has not called the loader yet. *)
Definition process_start : World := {| bfd_init_flag := 0; trace := [] |}.

Definition M (A : Type) : Type := World -> A * World.

Definition ret {A : Type} (a : A) : M A := fun w => (a, w).
Definition bind {A B : Type} (m : M A) (k : A -> M B) : M B :=
  fun w => let (a, w') := m w in k a w'.

Declare Scope loader_scope.
Delimit Scope loader_scope with loader.
Notation "x <- m ;; k" := (bind m (fun x => k))
  (at level 61, m at next level, right associativity) : loader_scope.
Notation "' pat <- m ;; k" := (bind m (fun x => match x with pat => k end))
  (at level 61, pat pattern, m at next level, right associativity) : loader_scope.
Notation "m ;;; k" := (bind m (fun _ => k))
  (at level 61, right associativity) : loader_scope.
Open Scope loader_scope.

Definition emit (e : event) : M unit :=
  fun w => (tt, {| bfd_init_flag := bfd_init_flag w; trace := trace w ++ [e] |}).
Definition read_bfd_init_flag : M Z := fun w => (bfd_init_flag w, w).
Definition write_bfd_init_flag (v : Z) : M unit :=
  fun w => (tt, {| bfd_init_flag := v; trace := trace w |}).

Definition fprintf_stderr (m : message) : M unit := emit (ev_stderr m).
Definition bfd_init : M unit := emit ev_bfd_init.
Definition bfd_set_error_no_error : M unit := emit ev_bfd_set_error_no_error.
Definition bfd_close (h : bfd) : M unit := emit (ev_bfd_close h).
Definition free : M unit := emit ev_free.

(** What the header and the machine contribute: the constants of bfd.h with
    the values they have in the installed header (two [case] labels of one
    [switch] are different numbers), what [bfd_openr] answers for a path
    ([None] is the NULL pointer) and whether [malloc] serves a request. *)
Class Platform : Type := {
  BSF_FUNCTION : Z;
  bfd_mach_i386_i386 : Z;
  bfd_mach_x86_64 : Z;
  case_labels_differ : bfd_mach_i386_i386 <> bfd_mach_x86_64;
  openr : string -> option bfd;
  malloc_ok : Z -> bool
}.

Module Loader.
Section WithPlatform.
Context {P : Platform}.

Definition bfd_openr (fname : string) : M (option bfd) :=
  let r := openr fname in emit (ev_bfd_openr fname r) ;;; ret r.

(** [malloc (n)]: the buffer itself holds nothing the loader reads before
    libbfd fills it, so only the success of the request is kept. *)
Definition malloc (n : Z) : M bool :=
  let ok := malloc_ok n in emit (ev_malloc n ok) ;;; ret ok.

(** loader.cpp, lines 14-51. *)
Definition open_bfd (fname : string) : M (option bfd) :=
  flag <- read_bfd_init_flag ;;
  (if flag =? 0 then bfd_init ;;; write_bfd_init_flag 1 else ret tt) ;;;
  r <- bfd_openr fname ;;
  match r with
  | None =>
      fprintf_stderr (msg_failed_to_open fname) ;;; ret None
  | Some bfd_h =>
      if negb (is_bfd_object bfd_h) then
        fprintf_stderr (msg_not_an_executable fname) ;;; ret None
      else
        bfd_set_error_no_error ;;;
        if is_unknown_flavour (bfd_get_flavour bfd_h) then
          fprintf_stderr (msg_unrecognized_format fname) ;;; ret None
        else
          ret (Some bfd_h)
  end.

(** The body of the [for] loop, lines 100-107. *)
Definition push_function_symbol (s : asymbol) (bin : Binary) : Binary :=
  if Z.land (sym_flags s) BSF_FUNCTION =? 0 then bin
  else
    set_symbols (symbols bin ++
                   [{| s_type := SYM_TYPE_FUN;
                       s_name := sym_name s;
                       s_addr := to_uint64 (bfd_asymbol_value s) |}]) bin.

(** [for ( i = 0; i < nsyms; ++i )], lines 99-108: [remaining] is the number
    of iterations still to run, [nsyms - i].  An index past the entries that
    [bfd_canonicalize_symtab] wrote is never read, since [nsyms] is their
    number. *)
Fixpoint filter_symbols (bfd_symtab : list asymbol) (remaining : nat) (i : Z)
    (bin : Binary) : Binary :=
  match remaining with
  | O => bin
  | S remaining' =>
      let bin' := match nth_error bfd_symtab (Z.to_nat i) with
                  | Some s => push_function_symbol s bin
                  | None => bin
                  end in
      filter_symbols bfd_symtab remaining' (i + 1) bin'
  end.

(** loader.cpp, lines 67-121.  The result pairs [ret] with [*bin]. *)
Definition load_symbols_bfd (bfd_h : bfd) (bin : Binary) : M (Z * Binary) :=
  let n := bfd_get_symtab_upper_bound bfd_h in
  if n <? 0 then
    fprintf_stderr msg_failed_to_read_symtab ;;;
    (* fail, with bfd_symtab still NULL *)
    ret (-1, bin)
  else if negb (n =? 0) then
    ok <- malloc n ;;
    if negb ok then
      fprintf_stderr msg_out_of_memory ;;;
      (* fail, with bfd_symtab NULL *)
      ret (-1, bin)
    else
      let (nsyms, bfd_symtab) := bfd_canonicalize_symtab bfd_h in
      if nsyms <? 0 then
        fprintf_stderr msg_failed_to_read_symbols_table ;;;
        (* fail, then cleanup *)
        free ;;; ret (-1, bin)
      else
        let bin' := filter_symbols bfd_symtab (Z.to_nat (nsyms - 0)) 0 bin in
        (* cleanup *)
        free ;;; ret (0, bin')
  else
    ret (0, bin).

(** Modelled from the spec: [load_dynsym_bfd] is called on line 194 and defined
    nowhere in the sources.  The spec gives dynamic symbol extraction the
    contract of the static one, read from the dynamic symbol table: a negative
    size and a failed decoding are failures, size zero adds nothing, and the
    function entries are appended in table order. *)
Definition load_dynsym_bfd (bfd_h : bfd) (bin : Binary) : M (Z * Binary) :=
  let n := dynamic_symtab_upper_bound bfd_h in
  if n <? 0 then ret (-1, bin)
  else if negb (n =? 0) then
    ok <- malloc n ;;
    if negb ok then ret (-1, bin)
    else
      match dynamic_symtab bfd_h with
      | None => free ;;; ret (-1, bin)
      | Some tab =>
          free ;;; ret (0, filter_symbols tab (List.length tab) 0 bin)
      end
  else ret (0, bin).

(** Modelled from the spec: [load_sections_bfd] is called on line 196 and
    defined nowhere in the sources.  The spec has it record every section the
    format reports, zero-sized ones included, and fail only when the section
    table cannot be read. *)
Definition load_sections_bfd (bfd_h : bfd) (bin : Binary) : M (Z * Binary) :=
  match section_table bfd_h with
  | None => ret (-1, bin)
  | Some secs => ret (0, set_sections (sections bin ++ secs) bin)
  end.

(** [switch ( bfd_h -> xvec -> flavour )], lines 161-172: [None] is the
    [default] label, which jumps to [fail]. *)
Definition switch_flavour (f : bfd_flavour) (bin : Binary) : option Binary :=
  match f with
  | bfd_target_elf_flavour => Some (set_type BIN_TYPE_ELF bin)
  | bfd_target_coff_flavour => Some (set_type BIN_TYPE_PE bin)
  | bfd_target_unknown_flavour
  | bfd_target_other_flavour _ => None
  end.

(** [switch ( bfd_info -> mach )], lines 178-190: [None] is the [default]
    label, which jumps to [fail]. *)
Definition switch_mach (m : Z) (bin : Binary) : option Binary :=
  if m =? bfd_mach_i386_i386 then Some (set_bits 32 (set_arch ARCH_X86 bin))
  else if m =? bfd_mach_x86_64 then Some (set_bits 64 (set_arch ARCH_X86 bin))
  else None.

(** loader.cpp, lines 141-208.  The inner computation runs up to the label
    it leaves through ([fail] gives -1); the [cleanup] label follows it.  The
    result pairs [ret] with [*bin]. *)
Definition load_binary_bfd (fname : string) (bin : Binary) (type : BinaryType)
  : M (Z * Binary) :=
  bfd_h <- open_bfd fname ;;
  result <-
    match bfd_h with
    | None => ret (-1, bin)
    | Some h =>
        let bin := set_filename fname bin in
        let bin := set_entry (to_uint64 (bfd_get_start_address h)) bin in
        let bin := set_type_str (target_name (xvec h)) bin in
        match switch_flavour (target_flavour (xvec h)) bin with
        | None =>
            fprintf_stderr (msg_unsupported_binary_type (target_name (xvec h))) ;;;
            ret (-1, bin)
        | Some bin =>
            let bfd_info := bfd_get_arch_info h in
            let bin := set_arch_str (printable_name bfd_info) bin in
            match switch_mach (mach bfd_info) bin with
            | None =>
                fprintf_stderr (msg_unsupported_architecture (printable_name bfd_info)) ;;;
                ret (-1, bin)
            | Some bin =>
                r1 <- load_symbols_bfd h bin ;;
                r2 <- load_dynsym_bfd h (snd r1) ;;
                r3 <- load_sections_bfd h (snd r2) ;;
                if fst r3 <? 0 then ret (-1, snd r3) else ret (0, snd r3)
            end
        end
    end ;;
  (* cleanup *)
  match bfd_h with
  | Some h => bfd_close h
  | None => ret tt
  end ;;;
  ret result.

(** loader.cpp, lines 222-225. *)
Definition load_binary (fname : string) (bin : Binary) (type : BinaryType)
  : M (Z * Binary) :=
  load_binary_bfd fname bin type.

(** loader.cpp, lines 232-236. *)
Definition unload_binary : M unit := ret tt.

(** A process that calls [load_binary] once for every request of a list, in
    order; the statuses are collected. *)
Fixpoint load_all (calls : list (string * Binary * BinaryType)) : M (list Z) :=
  match calls with
  | [] => ret []
  | (fname, bin, ty) :: rest =>
      r <- load_binary fname bin ty ;;
      rs <- load_all rest ;;
      ret (fst r :: rs)
  end.

End WithPlatform.
End Loader.

(** ** Observations on a trace *)

Definition is_init (e : event) : bool :=
  match e with ev_bfd_init => true | _ => false end.
Definition is_opened (e : event) : bool :=
  match e with ev_bfd_openr _ (Some _) => true | _ => false end.
Definition is_openr (e : event) : bool :=
  match e with ev_bfd_openr _ _ => true | _ => false end.
Definition is_close (e : event) : bool :=
  match e with ev_bfd_close _ => true | _ => false end.

Definition count (p : event -> bool) (t : list event) : nat :=
  List.length (filter p t).

(** Calls of [bfd_init], handles obtained from [bfd_openr] and handles given
    to [bfd_close] so far. *)
Definition inits (w : World) : nat := count is_init (trace w).
Definition acquired (w : World) : nat := count is_opened (trace w).
Definition released (w : World) : nat := count is_close (trace w).

(** What has been written to stderr so far, oldest first. *)
Fixpoint stderr_of (t : list event) : list message :=
  match t with
  | [] => []
  | ev_stderr m :: t' => m :: stderr_of t'
  | _ :: t' => stderr_of t'
  end.
Definition stderr (w : World) : list message := stderr_of (trace w).

(** A Binary as its owner creates it, before any load. *)
Definition empty_binary : Binary :=
  {| filename := ""; type := BIN_TYPE_AUTO; type_str := ""; arch := ARCH_NONE;
     arch_str := ""; bits := 0; entry := 0; sections := []; symbols := [] |}.

(** The four fields a loaded Binary must have: a container type and an
    architecture the loader knows, a width of 32 or 64 and the entry point of
    the handle. *)
Definition populated_from (h : bfd) (b : Binary) : Prop :=
  (type b = BIN_TYPE_ELF \/ type b = BIN_TYPE_PE) /\
  arch b = ARCH_X86 /\
  (bits b = 32 \/ bits b = 64) /\
  entry b = to_uint64 (bfd_get_start_address h).

(** The function entries of a symbol table, each turned into a [Symbol]. *)
Definition is_function {P : Platform} (s : asymbol) : bool :=
  negb (Z.land (sym_flags s) BSF_FUNCTION =? 0).
Definition to_Symbol (s : asymbol) : Symbol :=
  {| s_type := SYM_TYPE_FUN; s_name := sym_name s;
     s_addr := to_uint64 (bfd_asymbol_value s) |}.
Definition function_symbols {P : Platform} (tab : list asymbol) : list Symbol :=
  map to_Symbol (filter is_function tab).

(** Appending to [bin -> symbols] and nothing else. *)
Definition append_symbols (new : list Symbol) (bin : Binary) : Binary :=
  set_symbols (symbols bin ++ new) bin.

(** The status and the Binary [load_symbols_bfd] leaves, case by case. *)
Definition symbols_outcome {P : Platform} (bfd_h : bfd) (bin : Binary) : Z * Binary :=
  let n := symtab_upper_bound bfd_h in
  if n <? 0 then (-1, bin)
  else if n =? 0 then (0, bin)
  else if negb (malloc_ok n) then (-1, bin)
  else match symtab bfd_h with
       | None => (-1, bin)
       | Some tab => (0, append_symbols (function_symbols tab) bin)
       end.

(** The handle [open_bfd] gives back: the one [bfd_openr] returned, when it
    is an object of a known flavour. *)
Definition probe_ok (h : bfd) : bool :=
  is_bfd_object h && negb (is_unknown_flavour (bfd_get_flavour h)).
Definition probe {P : Platform} (fname : string) : option bfd :=
  match openr fname with
  | Some h => if probe_ok h then Some h else None
  | None => None
  end.

(** What [open_bfd] does after [bfd_openr] has returned. *)
Definition probe_events {P : Platform} (fname : string) : list event :=
  match openr fname with
  | None => [ev_stderr (msg_failed_to_open fname)]
  | Some h =>
      if negb (is_bfd_object h) then [ev_stderr (msg_not_an_executable fname)]
      else if is_unknown_flavour (bfd_get_flavour h)
           then [ev_bfd_set_error_no_error; ev_stderr (msg_unrecognized_format fname)]
           else [ev_bfd_set_error_no_error]
  end.

(** The effect of lines 19-22 on the trace and on the flag. *)
Definition init_events (w : World) : list event :=
  if bfd_init_flag w =? 0 then [ev_bfd_init] else [].
Definition flag_after (w : World) : Z :=
  if bfd_init_flag w =? 0 then 1 else bfd_init_flag w.

(** The world once [open_bfd fname] has returned and [more] has followed. *)
Definition opened_world {P : Platform} (w : World) (fname : string)
    (more : list event) : World :=
  {| bfd_init_flag := flag_after w;
     trace := trace w ++ init_events w
              ++ ev_bfd_openr fname (openr fname) :: probe_events fname ++ more |}.

(** Events that neither initialise libbfd nor open or close a handle. *)
Definition quiet (e : event) : bool :=
  match e with
  | ev_bfd_init | ev_bfd_openr _ _ | ev_bfd_close _ => false
  | ev_bfd_set_error_no_error | ev_malloc _ _ | ev_free | ev_stderr _ => true
  end.

(** A computation that leaves the flag alone and adds quiet events only. *)
Definition keeps_quiet {A : Type} (m : M A) : Prop :=
  forall w, bfd_init_flag (snd (m w)) = bfd_init_flag w /\
            exists evs, trace (snd (m w)) = trace w ++ evs /\
                        forallb quiet evs = true.

(** The fields of a Binary that symbol and section extraction leave alone. *)
Definition same_header (b b' : Binary) : Prop :=
  filename b' = filename b /\ type b' = type b /\ type_str b' = type_str b /\
  arch b' = arch b /\ arch_str b' = arch_str b /\ bits b' = bits b /\
  entry b' = entry b.

(** The Binary as lines 155-159 leave it. *)
Definition with_general_information (fname : string) (h : bfd) (bin : Binary)
  : Binary :=
  set_type_str (target_name (xvec h))
    (set_entry (to_uint64 (bfd_get_start_address h))
       (set_filename fname bin)).

(** A world in which libbfd has been initialised: the flag is set, the
    trace starts with the one call of [bfd_init] and holds no other. *)
Definition initialised (w : World) : Prop :=
  bfd_init_flag w <> 0 /\
  exists rest, trace w = ev_bfd_init :: rest /\ count is_init rest = 0%nat.

(** A world the loader can be entered in: the process start, or an
    initialised world. *)
Definition reachable (w : World) : Prop :=
  (bfd_init_flag w = 0 /\ trace w = []) \/ initialised w.

(** ** A sample machine

    Header constants as powers of two and a handful of files. *)
Module Sample.

Definition elf64_target : bfd_target :=
  {| target_name := "elf64-x86-64"; target_flavour := bfd_target_elf_flavour |}.
Definition pei_target : bfd_target :=
  {| target_name := "pei-i386"; target_flavour := bfd_target_coff_flavour |}.
Definition aout_target : bfd_target :=
  {| target_name := "a.out-i386"; target_flavour := bfd_target_other_flavour 1 |}.
Definition binary_target : bfd_target :=
  {| target_name := "binary"; target_flavour := bfd_target_unknown_flavour |}.

Definition main_sym : asymbol :=
  {| sym_name := "main"; sym_flags := 8 + 2; sym_value := 4198400 |}.
Definition data_sym : asymbol :=
  {| sym_name := "completed.0"; sym_flags := 1; sym_value := 4210744 |}.
Definition start_sym : asymbol :=
  {| sym_name := "_start"; sym_flags := 8 + 2; sym_value := 4198432 |}.
Definition text_section : Section :=
  {| sec_name := ".text"; sec_start := 4198400; sec_size := 373; sec_perms := 5 |}.

(** A 64-bit x86 ELF executable with entry point 0x401020. *)
Definition prog_elf : bfd :=
  {| is_bfd_object := true; xvec := elf64_target; start_address := 4198432;
     arch_info := {| mach := 8; printable_name := "i386:x86-64" |};
     symtab_upper_bound := 32; symtab := Some [main_sym; data_sym; start_sym];
     dynamic_symtab_upper_bound := 0; dynamic_symtab := Some [];
     section_table := Some [text_section] |}.
(** The same program for a 32-bit PE target. *)
Definition prog_pe : bfd :=
  {| is_bfd_object := true; xvec := pei_target; start_address := 4198432;
     arch_info := {| mach := 4; printable_name := "i386" |};
     symtab_upper_bound := 32; symtab := Some [main_sym; data_sym; start_sym];
     dynamic_symtab_upper_bound := 0; dynamic_symtab := Some [];
     section_table := Some [text_section] |}.
(** An ELF object for a machine that is not x86. *)
Definition prog_arm : bfd :=
  {| is_bfd_object := true; xvec := elf64_target; start_address := 65536;
     arch_info := {| mach := 0; printable_name := "aarch64" |};
     symtab_upper_bound := 0; symtab := Some [];
     dynamic_symtab_upper_bound := 0; dynamic_symtab := Some [];
     section_table := Some [] |}.
(** An a.out object. *)
Definition prog_aout : bfd :=
  {| is_bfd_object := true; xvec := aout_target; start_address := 4096;
     arch_info := {| mach := 4; printable_name := "i386" |};
     symtab_upper_bound := 0; symtab := Some [];
     dynamic_symtab_upper_bound := 0; dynamic_symtab := Some [];
     section_table := Some [] |}.
(** A text file: it opens, and is not an object. *)
Definition notes_txt : bfd :=
  {| is_bfd_object := false; xvec := binary_target; start_address := 0;
     arch_info := {| mach := 0; printable_name := "UNKNOWN!" |};
     symtab_upper_bound := -1; symtab := None;
     dynamic_symtab_upper_bound := -1; dynamic_symtab := None;
     section_table := None |}.
(** An object whose container libbfd does not recognise. *)
Definition blob : bfd :=
  {| is_bfd_object := true; xvec := binary_target; start_address := 0;
     arch_info := {| mach := 0; printable_name := "UNKNOWN!" |};
     symtab_upper_bound := 0; symtab := Some [];
     dynamic_symtab_upper_bound := 0; dynamic_symtab := Some [];
     section_table := Some [] |}.
(** [prog_elf] stripped of its symbols. *)
Definition prog_stripped : bfd :=
  {| is_bfd_object := true; xvec := elf64_target; start_address := 4198432;
     arch_info := {| mach := 8; printable_name := "i386:x86-64" |};
     symtab_upper_bound := 0; symtab := Some [];
     dynamic_symtab_upper_bound := 0; dynamic_symtab := Some [];
     section_table := Some [text_section] |}.
(** [prog_elf] with a symbol table whose size cannot be read. *)
Definition prog_bad_symtab : bfd :=
  {| is_bfd_object := true; xvec := elf64_target; start_address := 4198432;
     arch_info := {| mach := 8; printable_name := "i386:x86-64" |};
     symtab_upper_bound := -1; symtab := None;
     dynamic_symtab_upper_bound := 0; dynamic_symtab := Some [];
     section_table := Some [text_section] |}.
(** [prog_elf] with a section table that cannot be read. *)
Definition prog_bad_sections : bfd :=
  {| is_bfd_object := true; xvec := elf64_target; start_address := 4198432;
     arch_info := {| mach := 8; printable_name := "i386:x86-64" |};
     symtab_upper_bound := 32; symtab := Some [main_sym; data_sym; start_sym];
     dynamic_symtab_upper_bound := 0; dynamic_symtab := Some [];
     section_table := None |}.

Definition files : list (string * bfd) :=
  [ ("prog", prog_elf); ("prog.exe", prog_pe); ("prog.arm", prog_arm);
    ("prog.aout", prog_aout); ("notes.txt", notes_txt); ("blob", blob);
    ("prog.stripped", prog_stripped); ("prog.badsyms", prog_bad_symtab);
    ("prog.badsecs", prog_bad_sections) ].

Fixpoint lookup (fname : string) (l : list (string * bfd)) : option bfd :=
  match l with
  | [] => None
  | (k, v) :: l' => if String.eqb fname k then Some v else lookup fname l'
  end.

#[export] Instance machine : Platform :=
  {| BSF_FUNCTION := 8;
     bfd_mach_i386_i386 := 4;
     bfd_mach_x86_64 := 8;
     case_labels_differ := ltac:(discriminate);
     openr := fun fname => lookup fname files;
     malloc_ok := fun _ => true |}.

(** One load of a file into a fresh Binary, in a fresh process. *)
Definition run (fname : string) : Z * Binary * World :=
  Loader.load_binary fname empty_binary BIN_TYPE_AUTO process_start.

(** Three loads in a row; the second file does not exist. *)
Definition session : list (string * Binary * BinaryType) :=
  [ ("prog", empty_binary, BIN_TYPE_AUTO);
    ("nope", empty_binary, BIN_TYPE_AUTO);
    ("prog.exe", empty_binary, BIN_TYPE_AUTO) ].

End Sample.


Import Loader.

(** ** Further observations *)

Definition is_set_error (e : event) : bool :=
  match e with ev_bfd_set_error_no_error => true | _ => false end.
Definition is_free (e : event) : bool :=
  match e with ev_free => true | _ => false end.
Definition is_malloc (e : event) : bool :=
  match e with ev_malloc _ _ => true | _ => false end.
(** A [malloc] that returned a buffer. *)
Definition is_buffer (e : event) : bool :=
  match e with ev_malloc _ true => true | _ => false end.

(** What [load_symbols_bfd] adds to the trace, path by path. *)
Definition symbols_events {P : Platform} (bfd_h : bfd) : list event :=
  let n := symtab_upper_bound bfd_h in
  if n <? 0 then [ev_stderr msg_failed_to_read_symtab]
  else if n =? 0 then []
  else if negb (malloc_ok n)
       then [ev_malloc n false; ev_stderr msg_out_of_memory]
       else match symtab bfd_h with
            | None => [ev_malloc n true;
                       ev_stderr msg_failed_to_read_symbols_table; ev_free]
            | Some _ => [ev_malloc n true; ev_free]
            end.

(** The status and the Binary [load_dynsym_bfd] leaves. *)
Definition dynsym_outcome {P : Platform} (bfd_h : bfd) (bin : Binary)
  : Z * Binary :=
  let n := dynamic_symtab_upper_bound bfd_h in
  if n <? 0 then (-1, bin)
  else if n =? 0 then (0, bin)
  else if negb (malloc_ok n) then (-1, bin)
  else match dynamic_symtab bfd_h with
       | None => (-1, bin)
       | Some tab => (0, append_symbols (function_symbols tab) bin)
       end.

(** The status and the Binary a load leaves, as a function of the path and
    of the Binary alone. *)
Definition load_outcome {P : Platform} (fname : string) (bin : Binary)
  : Z * Binary :=
  match probe fname with
  | None => (-1, bin)
  | Some h =>
      let b1 := with_general_information fname h bin in
      match switch_flavour (target_flavour (xvec h)) b1 with
      | None => (-1, b1)
      | Some b2 =>
          let b3 := set_arch_str (printable_name (bfd_get_arch_info h)) b2 in
          match switch_mach (mach (bfd_get_arch_info h)) b3 with
          | None => (-1, b3)
          | Some b4 =>
              let b5 := snd (symbols_outcome h b4) in
              let b6 := snd (dynsym_outcome h b5) in
              match section_table h with
              | None => (-1, b6)
              | Some secs => (0, set_sections (sections b6 ++ secs) b6)
              end
          end
      end
  end.

(** A request whose file [bfd_openr] opens and [open_bfd] then rejects. *)
Definition rejected_by_probe {P : Platform}
    (call : string * Binary * BinaryType) : bool :=
  match openr (fst (fst call)) with
  | Some h => negb (probe_ok h)
  | None => false
  end.

(** The sample machine with an allocator that serves no request. *)
Definition no_memory : Platform :=
  {| BSF_FUNCTION := 8;
     bfd_mach_i386_i386 := 4;
     bfd_mach_x86_64 := 8;
     case_labels_differ := ltac:(discriminate);
     openr := fun fname => Sample.lookup fname Sample.files;
     malloc_ok := fun _ => false |}.




(** ** Symbol extraction *)

Section SymbolExtraction.
Context {P : Platform}.

Lemma append_symbols_nil (bin : Binary) : append_symbols [] bin = bin.
Proof.
  destruct bin; unfold append_symbols, set_symbols; simpl.
  now rewrite app_nil_r.
Qed.

Lemma append_symbols_twice (l1 l2 : list Symbol) (bin : Binary) :
  append_symbols l2 (append_symbols l1 bin) = append_symbols (l1 ++ l2) bin.
Proof.
  unfold append_symbols, set_symbols; simpl. now rewrite app_assoc.
Qed.

Lemma push_function_symbol_spec (s : asymbol) (bin : Binary) :
  push_function_symbol s bin = append_symbols (function_symbols [s]) bin.
Proof.
  unfold push_function_symbol, function_symbols, is_function; simpl.
  destruct (Z.land (sym_flags s) BSF_FUNCTION =? 0); simpl.
  - now rewrite append_symbols_nil.
  - reflexivity.
Qed.

Lemma function_symbols_app (l1 l2 : list asymbol) :
  function_symbols (l1 ++ l2) = function_symbols l1 ++ function_symbols l2.
Proof.
  unfold function_symbols. now rewrite filter_app, map_app.
Qed.

Lemma function_symbols_cons (s : asymbol) (l : list asymbol) :
  function_symbols (s :: l) = function_symbols [s] ++ function_symbols l.
Proof. exact (function_symbols_app [s] l). Qed.

Lemma skipn_at_entry {A : Type} (l : list A) :
  forall (i : nat) (x : A),
    nth_error l i = Some x -> skipn i l = x :: skipn (S i) l.
Proof.
  induction l as [| a l IH]; intros [| i] x H; simpl in *; try discriminate.
  - now inversion H.
  - apply (IH _ _ H).
Qed.

(** The loop started at index [i] with [k] iterations to go visits the
    entries [i .. i + k - 1] in order. *)
Lemma filter_symbols_spec (tab : list asymbol) :
  forall (k i : nat) (bin : Binary),
    filter_symbols tab k (Z.of_nat i) bin
    = append_symbols (function_symbols (firstn k (skipn i tab))) bin.
Proof.
  induction k as [| k IH]; intros i bin; cbn [filter_symbols firstn].
  - now rewrite append_symbols_nil.
  - rewrite Nat2Z.id.
    replace (Z.of_nat i + 1) with (Z.of_nat (S i)) by lia.
    rewrite IH.
    destruct (nth_error tab i) as [s |] eqn:E.
    + rewrite (skipn_at_entry _ _ _ E); cbn [firstn].
      rewrite function_symbols_cons, push_function_symbol_spec.
      apply append_symbols_twice.
    + apply nth_error_None in E.
      rewrite (skipn_all2 (n := i)) by assumption.
      rewrite (skipn_all2 (n := S i)) by lia.
      now rewrite firstn_nil.
Qed.

Lemma filter_symbols_whole (tab : list asymbol) (bin : Binary) :
  filter_symbols tab (List.length tab) 0 bin
  = append_symbols (function_symbols tab) bin.
Proof.
  change 0 with (Z.of_nat 0).
  rewrite filter_symbols_spec.
  cbn [skipn]. now rewrite firstn_all.
Qed.

Lemma load_symbols_bfd_outcome (bfd_h : bfd) (bin : Binary) (w : World) :
  fst (load_symbols_bfd bfd_h bin w) = symbols_outcome bfd_h bin.
Proof.
  unfold load_symbols_bfd, symbols_outcome, bfd_get_symtab_upper_bound,
    bfd_canonicalize_symtab, malloc, fprintf_stderr, free, bind, ret, emit.
  destruct (symtab_upper_bound bfd_h <? 0); [reflexivity |].
  destruct (symtab_upper_bound bfd_h =? 0); simpl; [reflexivity |].
  destruct (malloc_ok (symtab_upper_bound bfd_h)); simpl; [| reflexivity].
  destruct (symtab bfd_h) as [tab |]; simpl; [| reflexivity].
  destruct (Z.ltb_spec (Z.of_nat (List.length tab)) 0); [lia |]. simpl.
  rewrite Z.sub_0_r, Nat2Z.id. now rewrite filter_symbols_whole.
Qed.

Lemma load_dynsym_bfd_outcome (bfd_h : bfd) (bin : Binary) (w : World) :
  exists new, snd (fst (load_dynsym_bfd bfd_h bin w)) = append_symbols new bin.
Proof.
  unfold load_dynsym_bfd, malloc, free, bind, ret, emit.
  destruct (dynamic_symtab_upper_bound bfd_h <? 0);
    [exists []; now rewrite append_symbols_nil |].
  destruct (dynamic_symtab_upper_bound bfd_h =? 0); simpl;
    [exists []; now rewrite append_symbols_nil |].
  destruct (malloc_ok (dynamic_symtab_upper_bound bfd_h)); simpl;
    [| exists []; now rewrite append_symbols_nil].
  destruct (dynamic_symtab bfd_h) as [tab |]; simpl;
    [| exists []; now rewrite append_symbols_nil].
  exists (function_symbols tab). apply filter_symbols_whole.
Qed.

End SymbolExtraction.

(** ** Traces *)

Section Traces.
Context {P : Platform}.

Lemma keeps_quiet_ret {A : Type} (a : A) : keeps_quiet (ret a).
Proof.
  intros w; split; [reflexivity |].
  exists []. simpl. now rewrite app_nil_r.
Qed.

Lemma keeps_quiet_emit (e : event) : quiet e = true -> keeps_quiet (emit e).
Proof.
  intros He w; split; [reflexivity |].
  exists [e]; simpl. now rewrite He.
Qed.

Lemma keeps_quiet_bind {A B : Type} (m : M A) (k : A -> M B) :
  keeps_quiet m -> (forall a, keeps_quiet (k a)) -> keeps_quiet (bind m k).
Proof.
  intros Hm Hk w. unfold bind.
  destruct (Hm w) as [Hf [evs [Ht Hq]]].
  destruct (m w) as [a w1]; simpl in *.
  destruct (Hk a w1) as [Hf' [evs' [Ht' Hq']]].
  split; [congruence |].
  exists (evs ++ evs'). rewrite Ht', Ht, app_assoc, forallb_app, Hq, Hq'.
  now split.
Qed.

Ltac quiet_step :=
  first [ apply keeps_quiet_ret
        | apply keeps_quiet_emit; reflexivity
        | apply keeps_quiet_bind; [| intros ?]
        | match goal with
          | |- keeps_quiet (if ?c then _ else _) => destruct c
          | |- keeps_quiet (match ?o with Some _ => _ | None => _ end) =>
              destruct o
          | |- keeps_quiet (let (_, _) := ?p in _) => destruct p
          end ].

Lemma load_symbols_bfd_quiet (h : bfd) (bin : Binary) :
  keeps_quiet (load_symbols_bfd h bin).
Proof.
  unfold load_symbols_bfd, malloc, fprintf_stderr, free.
  repeat quiet_step.
Qed.

Lemma load_dynsym_bfd_quiet (h : bfd) (bin : Binary) :
  keeps_quiet (load_dynsym_bfd h bin).
Proof.
  unfold load_dynsym_bfd, malloc, free.
  repeat quiet_step.
Qed.

Lemma load_sections_bfd_quiet (h : bfd) (bin : Binary) :
  keeps_quiet (load_sections_bfd h bin).
Proof.
  unfold load_sections_bfd.
  repeat quiet_step.
Qed.

Lemma count_app (p : event -> bool) (t1 t2 : list event) :
  count p (t1 ++ t2) = (count p t1 + count p t2)%nat.
Proof. unfold count. now rewrite filter_app, length_app. Qed.

(** Quiet events are neither initialisations, nor opens, nor closes. *)
Lemma count_quiet (p : event -> bool) (evs : list event) :
  (forall e, quiet e = true -> p e = false) ->
  forallb quiet evs = true -> count p evs = 0%nat.
Proof.
  intros Hp. unfold count.
  induction evs as [| e evs IH]; simpl; [reflexivity |].
  intros H. apply andb_prop in H as [He Hevs].
  rewrite (Hp e He). now apply IH.
Qed.

Lemma quiet_not_init (e : event) : quiet e = true -> is_init e = false.
Proof. now destruct e. Qed.
Lemma quiet_not_opened (e : event) : quiet e = true -> is_opened e = false.
Proof. now destruct e. Qed.
Lemma quiet_not_close (e : event) : quiet e = true -> is_close e = false.
Proof. now destruct e. Qed.

Lemma probe_events_quiet (fname : string) :
  forallb quiet (probe_events fname) = true.
Proof.
  unfold probe_events.
  destruct (openr fname) as [h |]; [| reflexivity].
  destruct (is_bfd_object h); simpl; [| reflexivity].
  now destruct (is_unknown_flavour (bfd_get_flavour h)).
Qed.

Lemma stderr_of_app (t1 t2 : list event) :
  stderr_of (t1 ++ t2) = stderr_of t1 ++ stderr_of t2.
Proof.
  induction t1 as [| e t1 IH]; simpl; [reflexivity |].
  destruct e; simpl; now rewrite ?IH.
Qed.

Lemma stderr_of_init_events (w : World) : stderr_of (init_events w) = [].
Proof. unfold init_events. now destruct (bfd_init_flag w =? 0). Qed.

(** [open_bfd], as one equation. *)
Lemma open_bfd_spec (fname : string) (w : World) :
  open_bfd fname w = (probe fname, opened_world w fname []).
Proof.
  unfold open_bfd, probe, probe_ok, opened_world, probe_events, init_events,
    flag_after, bfd_openr, bfd_init, bfd_set_error_no_error, fprintf_stderr,
    read_bfd_init_flag, write_bfd_init_flag, bind, ret, emit.
  simpl.
  destruct (bfd_init_flag w =? 0); simpl;
    (destruct (openr fname) as [h |]; simpl;
     [ destruct (is_bfd_object h); simpl;
       [ destruct (is_unknown_flavour (bfd_get_flavour h)); simpl |] |]);
    rewrite <- ?app_assoc; reflexivity.
Qed.

End Traces.

(** ** The orchestrator, case by case *)

Section Orchestrator.
Context {P : Platform}.

Lemma emit_opened_world (e : event) (w : World) (fname : string)
    (more : list event) :
  emit e (opened_world w fname more) = (tt, opened_world w fname (more ++ [e])).
Proof.
  unfold emit, opened_world; simpl. do 2 f_equal.
  rewrite <- !app_assoc; simpl. now rewrite <- !app_assoc.
Qed.

Lemma keeps_quiet_opened {A : Type} (m : M A) (w : World) (fname : string)
    (more : list event) :
  keeps_quiet m ->
  exists evs, snd (m (opened_world w fname more))
              = opened_world w fname (more ++ evs)
              /\ forallb quiet evs = true.
Proof.
  intros Hm. destruct (Hm (opened_world w fname more)) as [Hf [evs [Ht Hq]]].
  exists evs; split; [| assumption].
  destruct (snd (m (opened_world w fname more))) as [f t]; simpl in *.
  unfold opened_world; subst f t; simpl. f_equal.
  rewrite <- !app_assoc; simpl. now rewrite <- !app_assoc.
Qed.

Lemma probe_Some (fname : string) (h : bfd) :
  probe fname = Some h -> openr fname = Some h /\ probe_ok h = true.
Proof.
  unfold probe. destruct (openr fname) as [h' |]; [| discriminate].
  destruct (probe_ok h') eqn:E; [| discriminate].
  intros H; inversion H; subst; now split.
Qed.

Lemma probe_None (fname : string) :
  probe fname = None ->
  openr fname = None \/ exists h, openr fname = Some h /\ probe_ok h = false.
Proof.
  unfold probe. destruct (openr fname) as [h |]; [| now left].
  destruct (probe_ok h) eqn:E; [discriminate |].
  intros _; right; now exists h.
Qed.

(** The Format Probe fails: nothing is assigned and nothing is closed. *)
Lemma load_binary_bfd_probe_failed (fname : string) (bin : Binary)
    (ty : BinaryType) (w : World) :
  probe fname = None ->
  load_binary_bfd fname bin ty w = (-1, bin, opened_world w fname []).
Proof.
  intros H. unfold load_binary_bfd, bind. rewrite open_bfd_spec, H.
  reflexivity.
Qed.

(** The [default] label of the flavour switch. *)
Lemma load_binary_bfd_flavour_failed (fname : string) (bin : Binary)
    (ty : BinaryType) (w : World) (h : bfd) :
  probe fname = Some h ->
  switch_flavour (target_flavour (xvec h)) (with_general_information fname h bin)
  = None ->
  load_binary_bfd fname bin ty w
  = (-1, with_general_information fname h bin,
     opened_world w fname
       [ev_stderr (msg_unsupported_binary_type (target_name (xvec h)));
        ev_bfd_close h]).
Proof.
  intros H Hf. unfold load_binary_bfd, bind. rewrite open_bfd_spec, H.
  fold (with_general_information fname h bin). rewrite Hf.
  unfold fprintf_stderr, bfd_close, ret, bind.
  now rewrite !emit_opened_world.
Qed.

(** The [default] label of the machine switch. *)
Lemma load_binary_bfd_mach_failed (fname : string) (bin : Binary)
    (ty : BinaryType) (w : World) (h : bfd) (b2 : Binary) :
  probe fname = Some h ->
  switch_flavour (target_flavour (xvec h)) (with_general_information fname h bin)
  = Some b2 ->
  switch_mach (mach (bfd_get_arch_info h))
    (set_arch_str (printable_name (bfd_get_arch_info h)) b2) = None ->
  load_binary_bfd fname bin ty w
  = (-1, set_arch_str (printable_name (bfd_get_arch_info h)) b2,
     opened_world w fname
       [ev_stderr (msg_unsupported_architecture
                     (printable_name (bfd_get_arch_info h)));
        ev_bfd_close h]).
Proof.
  intros H Hf Hm. unfold load_binary_bfd, bind. rewrite open_bfd_spec, H.
  fold (with_general_information fname h bin). rewrite Hf.
  cbv zeta. rewrite Hm.
  unfold fprintf_stderr, bfd_close, ret, bind.
  now rewrite !emit_opened_world.
Qed.

Lemma same_header_refl (b : Binary) : same_header b b.
Proof. unfold same_header; repeat split. Qed.

Lemma same_header_trans (b1 b2 b3 : Binary) :
  same_header b1 b2 -> same_header b2 b3 -> same_header b1 b3.
Proof. unfold same_header; intuition congruence. Qed.

Lemma same_header_append_symbols (new : list Symbol) (b : Binary) :
  same_header b (append_symbols new b).
Proof. unfold same_header; repeat split. Qed.

Lemma load_symbols_bfd_appends (h : bfd) (bin : Binary) (w : World) :
  exists new, snd (fst (load_symbols_bfd h bin w)) = append_symbols new bin.
Proof.
  rewrite load_symbols_bfd_outcome. unfold symbols_outcome.
  destruct (symtab_upper_bound h <? 0);
    [exists []; now rewrite append_symbols_nil |].
  destruct (symtab_upper_bound h =? 0);
    [exists []; now rewrite append_symbols_nil |].
  destruct (negb (malloc_ok (symtab_upper_bound h)));
    [exists []; now rewrite append_symbols_nil |].
  destruct (symtab h) as [tab |];
    [| exists []; now rewrite append_symbols_nil].
  now exists (function_symbols tab).
Qed.

(** The status of section extraction and the Binary it leaves. *)
Lemma load_sections_bfd_outcome (h : bfd) (bin : Binary) (w : World) :
  fst (load_sections_bfd h bin w)
  = match section_table h with
    | None => (-1, bin)
    | Some secs => (0, set_sections (sections bin ++ secs) bin)
    end.
Proof. unfold load_sections_bfd. now destruct (section_table h). Qed.

(** Both switches pass: the three extractors run, then [cleanup] closes
    the handle.  [dyn] is what dynamic symbol extraction appended. *)
Lemma load_binary_bfd_pipeline (fname : string) (bin : Binary)
    (ty : BinaryType) (w : World) (h : bfd) (b2 b4 : Binary) :
  probe fname = Some h ->
  switch_flavour (target_flavour (xvec h)) (with_general_information fname h bin)
  = Some b2 ->
  switch_mach (mach (bfd_get_arch_info h))
    (set_arch_str (printable_name (bfd_get_arch_info h)) b2) = Some b4 ->
  exists (dyn : list Symbol) (body : list event),
    let b6 := append_symbols dyn (snd (symbols_outcome h b4)) in
    load_binary_bfd fname bin ty w
    = (match section_table h with None => -1 | Some _ => 0 end,
       match section_table h with
       | None => b6
       | Some secs => set_sections (sections b6 ++ secs) b6
       end,
       opened_world w fname (body ++ [ev_bfd_close h]))
    /\ forallb quiet body = true.
Proof.
  intros H Hf Hm. unfold load_binary_bfd, bind. rewrite open_bfd_spec, H.
  fold (with_general_information fname h bin). rewrite Hf.
  cbv zeta. rewrite Hm.
  (* static symbols *)
  destruct (keeps_quiet_opened _ w fname [] (load_symbols_bfd_quiet h b4))
    as [e1 [W1 Q1]].
  pose proof (load_symbols_bfd_outcome h b4 (opened_world w fname [])) as R1.
  destruct (load_symbols_bfd h b4 (opened_world w fname [])) as [r1 w1].
  simpl in W1, R1; subst r1 w1.
  (* dynamic symbols *)
  set (b5 := snd (symbols_outcome h b4)).
  destruct (keeps_quiet_opened _ w fname e1 (load_dynsym_bfd_quiet h b5))
    as [e2 [W2 Q2]].
  destruct (load_dynsym_bfd_outcome h b5 (opened_world w fname e1))
    as [dyn R2].
  destruct (load_dynsym_bfd h b5 (opened_world w fname e1)) as [r2 w2].
  simpl in W2, R2; subst w2.
  (* sections *)
  destruct (keeps_quiet_opened _ w fname (e1 ++ e2)
              (load_sections_bfd_quiet h (snd r2))) as [e3 [W3 Q3]].
  pose proof (load_sections_bfd_outcome h (snd r2)
                (opened_world w fname (e1 ++ e2))) as R3.
  destruct (load_sections_bfd h (snd r2) (opened_world w fname (e1 ++ e2)))
    as [r3 w3].
  simpl in W3, R3; subst r3 w3.
  exists dyn, ((e1 ++ e2) ++ e3).
  cbv zeta. rewrite <- R2. split.
  - destruct (section_table h) as [secs |]; simpl;
      unfold ret, opened_world; do 2 f_equal;
      rewrite <- !app_assoc; simpl; now rewrite <- !app_assoc.
  - now rewrite !forallb_app, Q1, Q2, Q3.
Qed.

Lemma switch_flavour_type (f : bfd_flavour) (b b2 : Binary) :
  switch_flavour f b = Some b2 ->
  (f = bfd_target_elf_flavour /\ b2 = set_type BIN_TYPE_ELF b) \/
  (f = bfd_target_coff_flavour /\ b2 = set_type BIN_TYPE_PE b).
Proof.
  destruct f; simpl; intros H; inversion H; [left | right]; now split.
Qed.

Lemma switch_flavour_None (f : bfd_flavour) (b : Binary) :
  switch_flavour f b = None <->
  f <> bfd_target_elf_flavour /\ f <> bfd_target_coff_flavour.
Proof.
  destruct f; simpl; split; try discriminate; try (intros [? ?]; congruence);
    intros _; split; discriminate.
Qed.

Lemma switch_mach_cases (m : Z) (b : Binary) :
  (m = bfd_mach_i386_i386 /\
   switch_mach m b = Some (set_bits 32 (set_arch ARCH_X86 b))) \/
  (m = bfd_mach_x86_64 /\
   switch_mach m b = Some (set_bits 64 (set_arch ARCH_X86 b))) \/
  (m <> bfd_mach_i386_i386 /\ m <> bfd_mach_x86_64 /\ switch_mach m b = None).
Proof.
  unfold switch_mach.
  destruct (Z.eqb_spec m bfd_mach_i386_i386) as [E1 | N1]; [now left |].
  destruct (Z.eqb_spec m bfd_mach_x86_64) as [E2 | N2]; [right; now left |].
  right; right; now repeat split.
Qed.

(** With both switches passed, the load returns the status of section
    extraction, keeps what the switches assigned, and has only added symbols
    and sections. *)
Lemma load_binary_bfd_reached_extractors (fname : string) (bin : Binary)
    (ty : BinaryType) (w : World) (h : bfd) (b2 b4 : Binary) :
  probe fname = Some h ->
  switch_flavour (target_flavour (xvec h)) (with_general_information fname h bin)
  = Some b2 ->
  switch_mach (mach (bfd_get_arch_info h))
    (set_arch_str (printable_name (bfd_get_arch_info h)) b2) = Some b4 ->
  exists (final : Binary) (new : list Symbol) (body : list event),
    load_binary_bfd fname bin ty w
    = (match section_table h with None => -1 | Some _ => 0 end, final,
       opened_world w fname (body ++ [ev_bfd_close h]))
    /\ forallb quiet body = true
    /\ same_header b4 final
    /\ symbols final = symbols (snd (symbols_outcome h b4)) ++ new
    /\ sections final
       = sections bin ++ match section_table h with
                         | None => []
                         | Some secs => secs
                         end.
Proof.
  intros H Hf Hm.
  destruct (load_binary_bfd_pipeline fname bin ty w h b2 b4 H Hf Hm)
    as [dyn [body [E Q]]].
  cbv zeta in E. eexists; exists dyn, body. split; [exact E |].
  split; [exact Q |].
  assert (Hb4 : sections b4 = sections bin /\
                exists new, snd (symbols_outcome h b4) = append_symbols new b4).
  { split.
    - destruct (switch_flavour_type _ _ _ Hf) as [[_ ->] | [_ ->]];
        destruct (switch_mach_cases (mach (bfd_get_arch_info h))
                    (set_arch_str (printable_name (bfd_get_arch_info h))
                       (set_type BIN_TYPE_ELF
                          (with_general_information fname h bin))))
          as [[_ E1] | [[_ E1] | [_ [_ E1]]]];
        destruct (switch_mach_cases (mach (bfd_get_arch_info h))
                    (set_arch_str (printable_name (bfd_get_arch_info h))
                       (set_type BIN_TYPE_PE
                          (with_general_information fname h bin))))
          as [[_ E2] | [[_ E2] | [_ [_ E2]]]];
        congruence || (rewrite ?E1, ?E2 in Hm; inversion Hm; reflexivity).
    - destruct (load_symbols_bfd_appends h b4 w) as [new Hn].
      rewrite load_symbols_bfd_outcome in Hn. now exists new. }
  destruct Hb4 as [Hsec [new Hnew]]. rewrite Hnew.
  destruct (section_table h) as [secs |]; simpl;
    (split; [unfold same_header; repeat split |]);
    (split; [reflexivity |]); rewrite ?app_nil_r; now rewrite Hsec.
Qed.

Lemma stderr_opened_world (w : World) (fname : string) (more : list event) :
  stderr (opened_world w fname more)
  = stderr w ++ stderr_of (probe_events fname) ++ stderr_of more.
Proof.
  unfold stderr, opened_world; simpl.
  rewrite stderr_of_app, stderr_of_app, stderr_of_init_events; simpl.
  now rewrite stderr_of_app.
Qed.

Lemma probe_events_of_handle (fname : string) (h : bfd) :
  probe fname = Some h -> probe_events fname = [ev_bfd_set_error_no_error].
Proof.
  intros H. destruct (probe_Some _ _ H) as [Ho Hp].
  unfold probe_events, probe_ok in *. rewrite Ho.
  apply andb_prop in Hp as [-> Hu]. simpl.
  now destruct (is_unknown_flavour (bfd_get_flavour h)).
Qed.

End Orchestrator.

(** ** Properties of the symbol extractor *)

Section SymbolClaims.
Context {P : Platform}.

(** C5: in [load_symbols_bfd] a negative answer of the symbol table size
    query is a failure (the function returns -1), while a size of zero is not:
    the function returns 0 and the symbol sequence is the one it was given, so
    it stays empty when it was empty. *)
Theorem load_symbols_bfd_size_query (h : bfd) (bin : Binary) (w : World) :
  (bfd_get_symtab_upper_bound h < 0 ->
   fst (fst (load_symbols_bfd h bin w)) = -1) /\
  (bfd_get_symtab_upper_bound h = 0 ->
   fst (fst (load_symbols_bfd h bin w)) = 0 /\
   snd (fst (load_symbols_bfd h bin w)) = bin /\
   (symbols bin = [] -> symbols (snd (fst (load_symbols_bfd h bin w))) = [])).
Proof.
  rewrite load_symbols_bfd_outcome.
  unfold symbols_outcome, bfd_get_symtab_upper_bound. split; intros Hn.
  - destruct (Z.ltb_spec (symtab_upper_bound h) 0); [reflexivity | lia].
  - rewrite Hn. simpl. auto.
Qed.

(** C6: when the size query is positive, the buffer is allocated and
    [bfd_canonicalize_symtab] succeeds with the table [tab], the symbols
    appended by [load_symbols_bfd] are exactly the entries of [tab] that
    carry [BSF_FUNCTION], in table order, each with type [SYM_TYPE_FUN], the
    name of the entry and its value as address; the other entries leave no
    trace. *)
Theorem load_symbols_bfd_function_entries (h : bfd) (bin : Binary) (w : World)
    (nsyms : Z) (tab : list asymbol) :
  0 < bfd_get_symtab_upper_bound h ->
  malloc_ok (bfd_get_symtab_upper_bound h) = true ->
  bfd_canonicalize_symtab h = (nsyms, tab) ->
  0 <= nsyms ->
  fst (fst (load_symbols_bfd h bin w)) = 0 /\
  symbols (snd (fst (load_symbols_bfd h bin w)))
  = symbols bin ++
    map (fun s => {| s_type := SYM_TYPE_FUN;
                     s_name := sym_name s;
                     s_addr := to_uint64 (bfd_asymbol_value s) |})
        (filter (fun s => negb (Z.land (sym_flags s) BSF_FUNCTION =? 0)) tab).
Proof.
  intros Hn Hm Hc Hs. rewrite load_symbols_bfd_outcome.
  unfold symbols_outcome, bfd_get_symtab_upper_bound, bfd_canonicalize_symtab in *.
  destruct (Z.ltb_spec (symtab_upper_bound h) 0); [lia |].
  destruct (Z.eqb_spec (symtab_upper_bound h) 0); [lia |].
  rewrite Hm; simpl.
  destruct (symtab h) as [tab' |]; inversion Hc; subst; [| lia].
  split; reflexivity.
Qed.

(** C10: [load_symbols_bfd] only appends to the symbol sequence.  Whatever
    it returns, filename, entry, type, type name, architecture, architecture
    name, bits and sections of the Binary are the ones it was given, and the
    symbols it was given are a prefix of the symbols it leaves. *)
Theorem load_symbols_bfd_only_appends (h : bfd) (bin : Binary) (w : World) :
  let bin' := snd (fst (load_symbols_bfd h bin w)) in
  filename bin' = filename bin /\
  entry bin' = entry bin /\
  type bin' = type bin /\
  type_str bin' = type_str bin /\
  arch bin' = arch bin /\
  arch_str bin' = arch_str bin /\
  bits bin' = bits bin /\
  sections bin' = sections bin /\
  exists new, symbols bin' = symbols bin ++ new.
Proof.
  cbv zeta. destruct (load_symbols_bfd_appends h bin w) as [new ->].
  repeat (split; [reflexivity |]). now exists new.
Qed.

End SymbolClaims.

(** ** Properties of the orchestrator *)

Section LoaderClaims.
Context {P : Platform}.

(** Every path through [load_binary_bfd]. *)
Lemma load_binary_bfd_cases (fname : string) (bin : Binary) (ty : BinaryType)
    (w : World) :
  match probe fname with
  | None => load_binary_bfd fname bin ty w = (-1, bin, opened_world w fname [])
  | Some h =>
      let b1 := with_general_information fname h bin in
      match switch_flavour (target_flavour (xvec h)) b1 with
      | None =>
          load_binary_bfd fname bin ty w
          = (-1, b1,
             opened_world w fname
               [ev_stderr (msg_unsupported_binary_type (target_name (xvec h)));
                ev_bfd_close h])
      | Some b2 =>
          let b3 := set_arch_str (printable_name (bfd_get_arch_info h)) b2 in
          match switch_mach (mach (bfd_get_arch_info h)) b3 with
          | None =>
              load_binary_bfd fname bin ty w
              = (-1, b3,
                 opened_world w fname
                   [ev_stderr (msg_unsupported_architecture
                                 (printable_name (bfd_get_arch_info h)));
                    ev_bfd_close h])
          | Some b4 =>
              exists (final : Binary) (new : list Symbol) (body : list event),
                load_binary_bfd fname bin ty w
                = (match section_table h with None => -1 | Some _ => 0 end,
                   final, opened_world w fname (body ++ [ev_bfd_close h]))
                /\ forallb quiet body = true
                /\ same_header b4 final
                /\ symbols final = symbols (snd (symbols_outcome h b4)) ++ new
                /\ sections final
                   = sections bin ++ match section_table h with
                                     | None => []
                                     | Some secs => secs
                                     end
          end
      end
  end.
Proof.
  destruct (probe fname) as [h |] eqn:Hp;
    [| now apply load_binary_bfd_probe_failed].
  cbv zeta.
  destruct (switch_flavour _ _) as [b2 |] eqn:Hf;
    [| now apply load_binary_bfd_flavour_failed].
  destruct (switch_mach _ _) as [b4 |] eqn:Hm;
    [| now apply (load_binary_bfd_mach_failed _ _ _ _ _ _ Hp Hf)].
  now apply (load_binary_bfd_reached_extractors _ _ _ _ _ _ _ Hp Hf).
Qed.

Lemma open_bfd_handle (fname : string) (w : World) (r : option bfd) :
  fst (open_bfd fname w) = r <-> probe fname = r.
Proof. now rewrite open_bfd_spec. Qed.

(** C4: for a handle [open_bfd] gave back, a load leaves type
    [BIN_TYPE_ELF] in the Binary when the flavour of the handle is ELF and
    [BIN_TYPE_PE] when it is COFF; with any other flavour the load fails
    with status -1 and the unsupported binary type diagnostic, and the type
    of the Binary is not assigned. *)
Theorem flavour_to_binary_type (fname : string) (bin : Binary)
    (ty : BinaryType) (w : World) (h : bfd) :
  fst (open_bfd fname w) = Some h ->
  let r := load_binary_bfd fname bin ty w in
  (bfd_get_flavour h = bfd_target_elf_flavour ->
   type (snd (fst r)) = BIN_TYPE_ELF) /\
  (bfd_get_flavour h = bfd_target_coff_flavour ->
   type (snd (fst r)) = BIN_TYPE_PE) /\
  (bfd_get_flavour h <> bfd_target_elf_flavour ->
   bfd_get_flavour h <> bfd_target_coff_flavour ->
   fst (fst r) = -1 /\
   type (snd (fst r)) = type bin /\
   stderr (snd r)
   = stderr w ++ [msg_unsupported_binary_type (target_name (xvec h))]).
Proof.
  intros Ho. apply open_bfd_handle in Ho. cbv zeta.
  pose proof (load_binary_bfd_cases fname bin ty w) as C.
  rewrite Ho in C; cbv zeta in C. unfold bfd_get_flavour.
  destruct (switch_flavour _ _) as [b2 |] eqn:Hf.
  - (* the switch assigned a type *)
    assert (T : type (snd (fst (load_binary_bfd fname bin ty w))) = type b2).
    { destruct (switch_mach _ _) as [b4 |] eqn:Hm.
      - destruct C as [final [new [body [E [_ [Hh _]]]]]]. rewrite E; simpl.
        destruct Hh as [_ [Ht _]]. rewrite Ht.
        destruct (switch_mach_cases (mach (bfd_get_arch_info h))
                    (set_arch_str (printable_name (bfd_get_arch_info h)) b2))
          as [[_ E1] | [[_ E1] | [_ [_ E1]]]];
          rewrite E1 in Hm; inversion Hm; reflexivity.
      - now rewrite C. }
    rewrite T.
    destruct (switch_flavour_type _ _ _ Hf) as [[F ->] | [F ->]];
      rewrite F; repeat split; try discriminate; try reflexivity;
      intros; congruence.
  - (* the default label *)
    rewrite C; simpl.
    apply switch_flavour_None in Hf as [N1 N2].
    repeat split; try (intros; congruence).
    rewrite stderr_opened_world, (probe_events_of_handle _ _ Ho).
    reflexivity.
Qed.



Lemma flavour_supported (h : bfd) (b : Binary) :
  bfd_get_flavour h = bfd_target_elf_flavour \/
  bfd_get_flavour h = bfd_target_coff_flavour ->
  exists b2, switch_flavour (target_flavour (xvec h)) b = Some b2.
Proof.
  unfold bfd_get_flavour. intros [-> | ->]; simpl; eauto.
Qed.

Lemma mach_supported (m : Z) (b : Binary) :
  m = bfd_mach_i386_i386 \/ m = bfd_mach_x86_64 ->
  exists b4, switch_mach m b = Some b4.
Proof.
  intros H.
  destruct (switch_mach_cases m b) as [[_ E] | [[_ E] | [N1 [N2 _]]]];
    eauto. destruct H; contradiction.
Qed.

(** C7: once both switches have passed, the status of the load is the one
    of section extraction alone.  When [load_symbols_bfd] fails on the handle
    and section extraction succeeds, the load still returns 0 and the
    sections of the handle are in the Binary; when section extraction fails,
    the load returns -1. *)
Theorem symbols_recoverable_sections_fatal (fname : string) (bin : Binary)
    (ty : BinaryType) (w : World) (h : bfd) :
  fst (open_bfd fname w) = Some h ->
  bfd_get_flavour h = bfd_target_elf_flavour \/
  bfd_get_flavour h = bfd_target_coff_flavour ->
  mach (bfd_get_arch_info h) = bfd_mach_i386_i386 \/
  mach (bfd_get_arch_info h) = bfd_mach_x86_64 ->
  let r := load_binary_bfd fname bin ty w in
  ((forall b w', fst (fst (load_symbols_bfd h b w')) = -1) ->
   (forall b w', fst (fst (load_sections_bfd h b w')) = 0) ->
   fst (fst r) = 0 /\
   exists secs, section_table h = Some secs /\
                sections (snd (fst r)) = sections bin ++ secs) /\
  ((forall b w', fst (fst (load_sections_bfd h b w')) < 0) ->
   fst (fst r) = -1).
Proof.
  intros Ho Hfl Hma. apply open_bfd_handle in Ho. cbv zeta.
  destruct (flavour_supported h (with_general_information fname h bin) Hfl)
    as [b2 Hf].
  destruct (mach_supported _
              (set_arch_str (printable_name (bfd_get_arch_info h)) b2) Hma)
    as [b4 Hm].
  destruct (load_binary_bfd_reached_extractors _ bin ty w _ _ _ Ho Hf Hm)
    as [final [new [body [E [_ [_ [_ Hsec]]]]]]].
  rewrite E; simpl. split.
  - intros _ Hok. specialize (Hok empty_binary process_start).
    rewrite load_sections_bfd_outcome in Hok.
    destruct (section_table h) as [secs |]; [| discriminate].
    split; [reflexivity |]. now exists secs.
  - intros Hbad. specialize (Hbad empty_binary process_start).
    rewrite load_sections_bfd_outcome in Hbad.
    destruct (section_table h); simpl in Hbad; [lia | reflexivity].
Qed.

Lemma switch_flavour_header (f : bfd_flavour) (b b2 : Binary) :
  switch_flavour f b = Some b2 ->
  filename b2 = filename b /\ entry b2 = entry b /\ type_str b2 = type_str b /\
  (type b2 = BIN_TYPE_ELF \/ type b2 = BIN_TYPE_PE).
Proof.
  intros H. destruct (switch_flavour_type _ _ _ H) as [[_ ->] | [_ ->]];
    simpl; auto.
Qed.

Lemma switch_mach_header (m : Z) (b b4 : Binary) :
  switch_mach m b = Some b4 ->
  filename b4 = filename b /\ entry b4 = entry b /\ type_str b4 = type_str b /\
  type b4 = type b /\ arch b4 = ARCH_X86 /\ (bits b4 = 32 \/ bits b4 = 64).
Proof.
  intros H.
  destruct (switch_mach_cases m b) as [[_ E] | [[_ E] | [_ [_ E]]]];
    rewrite E in H; inversion H; subst; simpl; auto 10.
Qed.

(** C2, as the code has it: [load_binary] returns 0 or -1.  When it returns
    0 the Binary has its type (ELF or PE), its architecture (X86), its bits
    (32 or 64) and its entry (the start address of the handle) all set.  When
    the Format Probe fails the load returns -1 and the Binary is the one the
    caller passed; when a later stage fails, the Binary already holds the
    filename, the entry and the type name assigned on lines 155-159. *)
Theorem load_binary_populates_in_place (fname : string) (bin : Binary)
    (ty : BinaryType) (w : World) :
  let r := load_binary fname bin ty w in
  (fst (fst r) = 0 \/ fst (fst r) = -1) /\
  (fst (fst r) = 0 ->
   exists h, fst (open_bfd fname w) = Some h /\
             populated_from h (snd (fst r))) /\
  (fst (open_bfd fname w) = None ->
   fst (fst r) = -1 /\ snd (fst r) = bin) /\
  (forall h, fst (open_bfd fname w) = Some h ->
             fst (fst r) = -1 ->
             filename (snd (fst r)) = fname /\
             entry (snd (fst r)) = to_uint64 (bfd_get_start_address h) /\
             type_str (snd (fst r)) = target_name (xvec h)).
Proof.
  cbv zeta. unfold load_binary. rewrite open_bfd_spec; simpl fst.
  pose proof (load_binary_bfd_cases fname bin ty w) as C.
  destruct (probe fname) as [h |] eqn:Hp.
  2:{ rewrite C; simpl.
      split; [now right |]. split; [discriminate |].
      split; [now split | discriminate]. }
  cbv zeta in C.
  destruct (switch_flavour _ _) as [b2 |] eqn:Hf.
  2:{ rewrite C; simpl.
      split; [now right |]. split; [discriminate |].
      split; [discriminate |].
      intros h' Hh' _; inversion Hh'; subst. now repeat split. }
  apply switch_flavour_header in Hf as [F1 [F2 [F3 F4]]].
  destruct (switch_mach _ _) as [b4 |] eqn:Hm.
  2:{ rewrite C; simpl.
      split; [now right |]. split; [discriminate |].
      split; [discriminate |].
      intros h' Hh' _; inversion Hh'; subst.
      rewrite F1, F2, F3. now repeat split. }
  apply switch_mach_header in Hm as [M1 [M2 [M3 [M4 [M5 M6]]]]].
  simpl in M1, M2, M3, M4.
  destruct C as [final [new [body [E [_ [Hh _]]]]]].
  destruct Hh as [H1 [H2 [H3 [H4 [H5 [H6 H7]]]]]].
  rewrite E; simpl. split; [destruct (section_table h); auto |].
  split; [| split; [discriminate |]].
  - intros _. exists h. split; [reflexivity |].
    unfold populated_from. rewrite H2, H4, H6, H7, M4, M5, M2, F2.
    repeat split; auto.
  - intros h' Hh' _; inversion Hh'; subst.
    rewrite H1, H7, H3, M1, M2, M3, F1, F2, F3. now repeat split.
Qed.

(** C8, as the code has it: [load_binary] returns a status only, 0 or -1,
    and -1 for every kind of failure.  A file that cannot be opened, a file
    that is not an object and an unrecognised format moreover leave the
    Binary of the caller as it was, so that nothing handed back tells these
    three kinds apart.  Each of them, and an unsupported binary type and an
    unsupported architecture as well, writes its own message to stderr. *)
Theorem load_binary_status_only (fname : string) (bin : Binary)
    (ty : BinaryType) (w : World) :
  let r := load_binary fname bin ty w in
  (fst (fst r) = 0 \/ fst (fst r) = -1) /\
  (openr fname = None ->
   fst (fst r) = -1 /\ snd (fst r) = bin /\
   stderr (snd r) = stderr w ++ [msg_failed_to_open fname]) /\
  (forall h, openr fname = Some h -> is_bfd_object h = false ->
   fst (fst r) = -1 /\ snd (fst r) = bin /\
   stderr (snd r) = stderr w ++ [msg_not_an_executable fname]) /\
  (forall h, openr fname = Some h -> is_bfd_object h = true ->
   bfd_get_flavour h = bfd_target_unknown_flavour ->
   fst (fst r) = -1 /\ snd (fst r) = bin /\
   stderr (snd r) = stderr w ++ [msg_unrecognized_format fname]) /\
  (forall h, fst (open_bfd fname w) = Some h ->
   bfd_get_flavour h <> bfd_target_elf_flavour ->
   bfd_get_flavour h <> bfd_target_coff_flavour ->
   fst (fst r) = -1 /\
   stderr (snd r)
   = stderr w ++ [msg_unsupported_binary_type (target_name (xvec h))]) /\
  (forall h, fst (open_bfd fname w) = Some h ->
   bfd_get_flavour h = bfd_target_elf_flavour \/
   bfd_get_flavour h = bfd_target_coff_flavour ->
   mach (bfd_get_arch_info h) <> bfd_mach_i386_i386 ->
   mach (bfd_get_arch_info h) <> bfd_mach_x86_64 ->
   fst (fst r) = -1 /\
   stderr (snd r)
   = stderr w ++ [msg_unsupported_architecture
                    (printable_name (bfd_get_arch_info h))]).
Proof.
  cbv zeta. unfold load_binary.
  pose proof (load_binary_bfd_cases fname bin ty w) as C.
  split; [| split; [| split; [| split; [| split]]]].
  - (* the status is 0 or -1 *)
    destruct (probe fname) as [h |]; [| rewrite C; auto].
    cbv zeta in C.
    destruct (switch_flavour _ _) as [b2 |]; [| rewrite C; auto].
    destruct (switch_mach _ _) as [b4 |]; [| rewrite C; auto].
    destruct C as [final [new [body [E _]]]]. rewrite E; simpl.
    destruct (section_table h); auto.
  - (* bfd_openr returns NULL *)
    intros Ho. unfold probe in C. rewrite Ho in C. rewrite C; simpl.
    split; [reflexivity |]. split; [reflexivity |].
    rewrite stderr_opened_world. unfold probe_events. rewrite Ho.
    simpl. now rewrite ?app_nil_r.
  - (* bfd_check_format fails *)
    intros h Ho Hobj. unfold probe, probe_ok in C. rewrite Ho, Hobj in C.
    simpl in C. rewrite C; simpl. split; [reflexivity |]. split; [reflexivity |].
    rewrite stderr_opened_world. unfold probe_events. rewrite Ho, Hobj.
    simpl. now rewrite ?app_nil_r.
  - (* unknown flavour *)
    intros h Ho Hobj Hfl. unfold probe, probe_ok in C.
    rewrite Ho, Hobj, Hfl in C.
    simpl in C. rewrite C; simpl. split; [reflexivity |]. split; [reflexivity |].
    rewrite stderr_opened_world. unfold probe_events. rewrite Ho, Hobj, Hfl.
    simpl. now rewrite ?app_nil_r.
  - (* default label of the flavour switch *)
    intros h Ho N1 N2. apply open_bfd_handle in Ho. rewrite Ho in C.
    cbv zeta in C. unfold bfd_get_flavour in *.
    destruct (switch_flavour _ _) as [b2 |] eqn:Hf.
    + apply switch_flavour_type in Hf as [[F _] | [F _]]; contradiction.
    + rewrite C; simpl. split; [reflexivity |].
      now rewrite stderr_opened_world, (probe_events_of_handle _ _ Ho).
  - (* default label of the machine switch *)
    intros h Ho Hfl N1 N2. apply open_bfd_handle in Ho. rewrite Ho in C.
    cbv zeta in C.
    destruct (flavour_supported h (with_general_information fname h bin) Hfl)
      as [b2 Hf].
    rewrite Hf in C.
    destruct (switch_mach_cases (mach (bfd_get_arch_info h))
                (set_arch_str (printable_name (bfd_get_arch_info h)) b2))
      as [[M _] | [[M _] | [_ [_ E]]]]; try contradiction.
    rewrite E in C. rewrite C; simpl. split; [reflexivity |].
    now rewrite stderr_opened_world, (probe_events_of_handle _ _ Ho).
Qed.

(** *** Handles and initialisation *)

Lemma count_cons (p : event -> bool) (e : event) (t : list event) :
  count p (e :: t) = ((if p e then 1 else 0) + count p t)%nat.
Proof. unfold count; simpl. now destruct (p e). Qed.

Lemma count_opened_world (p : event -> bool) (w : World) (fname : string)
    (more : list event) :
  count p (trace (opened_world w fname more))
  = (count p (trace w) + count p (init_events w)
     + (if p (ev_bfd_openr fname (openr fname)) then 1 else 0)
     + count p (probe_events fname) + count p more)%nat.
Proof.
  unfold opened_world; simpl.
  rewrite !count_app, count_cons, count_app. lia.
Qed.

(** The world a load leaves: what [open_bfd] did, then events among which
    there is no [bfd_init], no [bfd_openr], and one [bfd_close] exactly when
    [open_bfd] gave a handle back. *)
Lemma load_binary_bfd_world (fname : string) (bin : Binary) (ty : BinaryType)
    (w : World) :
  exists more,
    snd (load_binary_bfd fname bin ty w) = opened_world w fname more /\
    count is_init more = 0%nat /\
    count is_opened more = 0%nat /\
    count is_close more
    = match probe fname with Some _ => 1%nat | None => 0%nat end.
Proof.
  pose proof (load_binary_bfd_cases fname bin ty w) as C.
  destruct (probe fname) as [h |].
  2:{ exists []. rewrite C. now repeat split. }
  cbv zeta in C.
  destruct (switch_flavour _ _) as [b2 |].
  2:{ eexists. rewrite C. now repeat split. }
  destruct (switch_mach _ _) as [b4 |].
  2:{ eexists. rewrite C. now repeat split. }
  destruct C as [final [new [body [E [Q _]]]]].
  exists (body ++ [ev_bfd_close h]). rewrite E; simpl.
  rewrite !count_app.
  rewrite (count_quiet is_init body quiet_not_init Q).
  rewrite (count_quiet is_opened body quiet_not_opened Q).
  rewrite (count_quiet is_close body quiet_not_close Q).
  now repeat split.
Qed.

(** A load obtains a handle exactly when [bfd_openr] returns one, and closes
    one exactly when [open_bfd] hands it on to [load_binary_bfd]. *)
Lemma load_binary_bfd_handle_balance (fname : string) (bin : Binary)
    (ty : BinaryType) (w : World) :
  let w' := snd (load_binary_bfd fname bin ty w) in
  acquired w'
  = (acquired w + match openr fname with Some _ => 1 | None => 0 end)%nat /\
  released w'
  = (released w + match probe fname with Some _ => 1 | None => 0 end)%nat.
Proof.
  cbv zeta.
  destruct (load_binary_bfd_world fname bin ty w) as [more [-> [_ [Ho Hc]]]].
  unfold acquired, released. rewrite !count_opened_world, Ho, Hc.
  rewrite (count_quiet is_opened _ quiet_not_opened (probe_events_quiet fname)).
  rewrite (count_quiet is_close _ quiet_not_close (probe_events_quiet fname)).
  assert (I : forall p, p ev_bfd_init = false -> count p (init_events w) = 0%nat)
    by (intros p Hp; unfold init_events;
        destruct (bfd_init_flag w =? 0); [rewrite count_cons, Hp |]; reflexivity).
  rewrite !I by reflexivity. simpl.
  split; [destruct (openr fname) |]; lia.
Qed.

Lemma reachable_then_initialised (w : World) (fname : string)
    (more : list event) :
  reachable w -> count is_init more = 0%nat ->
  initialised (opened_world w fname more).
Proof.
  intros R Hm.
  assert (Q : count is_init (ev_bfd_openr fname (openr fname)
                             :: probe_events fname ++ more) = 0%nat).
  { rewrite count_cons, count_app, Hm.
    now rewrite (count_quiet is_init _ quiet_not_init
                   (probe_events_quiet fname)). }
  unfold initialised, opened_world, flag_after, init_events; simpl.
  destruct R as [[F T] | [F [rest [T Hr]]]].
  - rewrite F, T; simpl. split; [discriminate |]. eexists; split; eauto.
  - destruct (Z.eqb_spec (bfd_init_flag w) 0) as [E | _]; [contradiction |].
    split; [assumption |].
    rewrite T; simpl. eexists; split; [reflexivity |].
    now rewrite count_app, Hr, Q.
Qed.

Lemma load_all_cons_world (fname : string) (bin : Binary) (ty : BinaryType)
    (rest : list (string * Binary * BinaryType)) (w : World) :
  snd (load_all ((fname, bin, ty) :: rest) w)
  = snd (load_all rest (snd (load_binary fname bin ty w))).
Proof.
  simpl. unfold bind.
  destruct (load_binary fname bin ty w) as [r w1]; simpl.
  now destruct (load_all rest w1).
Qed.

Lemma load_binary_initialises (fname : string) (bin : Binary)
    (ty : BinaryType) (w : World) :
  reachable w -> initialised (snd (load_binary fname bin ty w)).
Proof.
  intros R. unfold load_binary.
  destruct (load_binary_bfd_world fname bin ty w) as [more [-> [Hi _]]].
  now apply reachable_then_initialised.
Qed.

Lemma load_all_stays_initialised
    (calls : list (string * Binary * BinaryType)) :
  forall w, initialised w -> initialised (snd (load_all calls w)).
Proof.
  induction calls as [| [[fname bin] ty] rest IH]; intros w I; [exact I |].
  rewrite load_all_cons_world. apply IH, load_binary_initialises.
  now right.
Qed.

Lemma initialised_before_open (w : World) :
  initialised w ->
  inits w = 1%nat /\
  forall pre e post,
    trace w = pre ++ e :: post -> is_openr e = true ->
    count is_init pre = 1%nat.
Proof.
  intros [_ [rest [T Hr]]]. unfold inits. rewrite T. split.
  - now rewrite count_cons, Hr.
  - intros [| e0 pre] e post E He; simpl in E; inversion E; subst.
    + discriminate.
    + rewrite count_app, count_cons in Hr.
      rewrite count_cons; simpl. lia.
Qed.

(** C9: in a process that calls [load_binary] any number of times, one
    after the other, [bfd_init] is called at most once.  As soon as there is
    one load, it has been called exactly once, and wherever [bfd_openr]
    appears in the trace the single [bfd_init] is already before it. *)
Theorem bfd_init_at_most_once (calls : list (string * Binary * BinaryType)) :
  let w := snd (load_all calls process_start) in
  (inits w <= 1)%nat /\
  (calls <> [] ->
   inits w = 1%nat /\
   forall pre e post,
     trace w = pre ++ e :: post -> is_openr e = true ->
     count is_init pre = 1%nat).
Proof.
  cbv zeta. destruct calls as [| [[fname bin] ty] rest].
  - split; [simpl; auto | intros H; now contradiction H].
  - assert (I : initialised (snd (load_all ((fname, bin, ty) :: rest)
                                    process_start))).
    { rewrite load_all_cons_world.
      apply load_all_stays_initialised, load_binary_initialises.
      now left. }
    destruct (initialised_before_open _ I) as [Hn Hb].
    split; [lia | intros _; now split].
Qed.

End LoaderClaims.

(** ** The sample machine *)

(** C1 fails on the code: a text file is opened by [bfd_openr] and rejected
    by [bfd_check_format]; [open_bfd] then returns NULL without closing the
    handle, and [load_binary_bfd] has nothing to close.  One handle was
    obtained and none was released.  The same happens to an object of
    unknown flavour. *)
Theorem handle_leaked_when_probe_rejects :
  (fst (fst (Sample.run "notes.txt")) = -1 /\
   acquired (snd (Sample.run "notes.txt")) = 1%nat /\
   released (snd (Sample.run "notes.txt")) = 0%nat) /\
  (fst (fst (Sample.run "blob")) = -1 /\
   acquired (snd (Sample.run "blob")) = 1%nat /\
   released (snd (Sample.run "blob")) = 0%nat).
Proof. vm_compute. repeat split. Qed.

(** C2 fails on the code: the load of an ELF object for a machine that is
    not x86 returns -1, and the Binary of the caller has its filename, its
    entry and its type assigned while architecture and bits are still the
    ones of the empty Binary. *)
Lemma failed_load_leaves_partial_binary :
  let r := Sample.run "prog.arm" in
  fst (fst r) = -1 /\
  filename (snd (fst r)) = "prog.arm" /\
  entry (snd (fst r)) = 65536 /\
  type (snd (fst r)) = BIN_TYPE_ELF /\
  arch (snd (fst r)) = ARCH_NONE /\
  bits (snd (fst r)) = 0 /\
  snd (fst r) <> empty_binary.
Proof. vm_compute. repeat split; discriminate. Qed.

(** C8 fails on the code: a missing file and a text file are two kinds of
    failure, with two different diagnostics, and [load_binary] hands the
    caller the same status and the same Binary for both, so nothing computed
    from what it returns tells them apart.  An unsupported architecture has
    that status too, and a symbol table that cannot be read is no failure. *)
Lemma failure_kinds_share_one_status :
  fst (Sample.run "nope") = fst (Sample.run "notes.txt") /\
  stderr (snd (Sample.run "nope")) = [msg_failed_to_open "nope"] /\
  stderr (snd (Sample.run "notes.txt")) = [msg_not_an_executable "notes.txt"] /\
  ~ (exists kind_of : Z * Binary -> message,
        kind_of (fst (Sample.run "nope")) = msg_failed_to_open "nope" /\
        kind_of (fst (Sample.run "notes.txt"))
        = msg_not_an_executable "notes.txt") /\
  fst (fst (Sample.run "prog.arm")) = fst (fst (Sample.run "nope")) /\
  stderr (snd (Sample.run "prog.arm")) = [msg_unsupported_architecture "aarch64"] /\
  fst (fst (Sample.run "prog.badsyms")) = 0.
Proof.
  assert (E : fst (Sample.run "nope") = fst (Sample.run "notes.txt"))
    by (vm_compute; reflexivity).
  split; [exact E |].
  split; [vm_compute; reflexivity |].
  split; [vm_compute; reflexivity |].
  split.
  - intros [kind_of [H1 H2]]. rewrite E in H1. rewrite H1 in H2.
    discriminate H2.
  - vm_compute. repeat split.
Qed.


(** *** The theorems at concrete inputs *)

Lemma load_symbols_bfd_size_query_witness :
  fst (fst (load_symbols_bfd (P := Sample.machine) Sample.prog_bad_symtab
              empty_binary process_start)) = -1 /\
  fst (load_symbols_bfd (P := Sample.machine) Sample.prog_stripped
         empty_binary process_start) = (0, empty_binary).
Proof.
  split.
  - apply (load_symbols_bfd_size_query (P := Sample.machine)
             Sample.prog_bad_symtab empty_binary process_start).
    vm_compute; reflexivity.
  - destruct (load_symbols_bfd_size_query (P := Sample.machine)
                Sample.prog_stripped empty_binary process_start) as [_ H].
    destruct (H eq_refl) as [H0 [Hb _]].
    destruct (load_symbols_bfd Sample.prog_stripped empty_binary process_start)
      as [[r b] w]; simpl in *. now rewrite H0, Hb.
Defined.

Lemma load_symbols_bfd_function_entries_witness :
  symbols (snd (fst (load_symbols_bfd (P := Sample.machine) Sample.prog_elf
                       empty_binary process_start)))
  = [ {| s_type := SYM_TYPE_FUN; s_name := "main"; s_addr := 4198400 |};
      {| s_type := SYM_TYPE_FUN; s_name := "_start"; s_addr := 4198432 |} ].
Proof.
  apply (load_symbols_bfd_function_entries (P := Sample.machine)
           Sample.prog_elf empty_binary process_start 3
           [Sample.main_sym; Sample.data_sym; Sample.start_sym]).
  - vm_compute; reflexivity.
  - reflexivity.
  - reflexivity.
  - vm_compute; discriminate.
Defined.

Lemma flavour_to_binary_type_witness :
  type (snd (fst (Sample.run "prog"))) = BIN_TYPE_ELF /\
  type (snd (fst (Sample.run "prog.exe"))) = BIN_TYPE_PE /\
  (fst (fst (Sample.run "prog.aout")) = -1 /\
   type (snd (fst (Sample.run "prog.aout"))) = BIN_TYPE_AUTO /\
   stderr (snd (Sample.run "prog.aout"))
   = [msg_unsupported_binary_type "a.out-i386"]).
Proof.
  split; [| split].
  - apply (flavour_to_binary_type (P := Sample.machine) "prog" empty_binary
             BIN_TYPE_AUTO process_start Sample.prog_elf); reflexivity.
  - apply (flavour_to_binary_type (P := Sample.machine) "prog.exe" empty_binary
             BIN_TYPE_AUTO process_start Sample.prog_pe); reflexivity.
  - apply (flavour_to_binary_type (P := Sample.machine) "prog.aout" empty_binary
             BIN_TYPE_AUTO process_start Sample.prog_aout);
      [reflexivity | discriminate | discriminate].
Defined.


Lemma symbols_recoverable_sections_fatal_witness :
  (fst (fst (load_symbols_bfd (P := Sample.machine) Sample.prog_bad_symtab
               empty_binary process_start)) = -1 /\
   fst (fst (Sample.run "prog.badsyms")) = 0) /\
  fst (fst (Sample.run "prog.badsecs")) = -1.
Proof.
  split; [split; [reflexivity |] |].
  - apply (symbols_recoverable_sections_fatal (P := Sample.machine)
             "prog.badsyms" empty_binary BIN_TYPE_AUTO process_start
             Sample.prog_bad_symtab);
      [reflexivity | left; reflexivity | right; reflexivity
      | intros; reflexivity | intros; reflexivity].
  - apply (symbols_recoverable_sections_fatal (P := Sample.machine)
             "prog.badsecs" empty_binary BIN_TYPE_AUTO process_start
             Sample.prog_bad_sections);
      [reflexivity | left; reflexivity | right; reflexivity
      | intros; reflexivity].
Defined.

Lemma load_binary_populates_in_place_witness :
  populated_from Sample.prog_elf (snd (fst (Sample.run "prog"))) /\
  fst (Sample.run "nope") = (-1, empty_binary).
Proof.
  split.
  - destruct (load_binary_populates_in_place (P := Sample.machine) "prog"
                empty_binary BIN_TYPE_AUTO process_start) as [_ [H _]].
    destruct (H eq_refl) as [h [Hh Hp]].
    vm_compute in Hh. inversion Hh; subst h. exact Hp.
  - destruct (load_binary_populates_in_place (P := Sample.machine) "nope"
                empty_binary BIN_TYPE_AUTO process_start) as [_ [_ [H _]]].
    destruct (H eq_refl) as [H0 Hb]. unfold Sample.run.
    destruct (load_binary "nope" empty_binary BIN_TYPE_AUTO process_start)
      as [[r b] w]; simpl in *. now rewrite H0, Hb.
Defined.

Lemma load_binary_status_only_witness :
  (fst (fst (Sample.run "nope")) = -1 /\
   snd (fst (Sample.run "nope")) = empty_binary /\
   stderr (snd (Sample.run "nope")) = [msg_failed_to_open "nope"]) /\
  (fst (fst (Sample.run "notes.txt")) = -1 /\
   snd (fst (Sample.run "notes.txt")) = empty_binary /\
   stderr (snd (Sample.run "notes.txt")) = [msg_not_an_executable "notes.txt"]) /\
  (fst (fst (Sample.run "blob")) = -1 /\
   snd (fst (Sample.run "blob")) = empty_binary /\
   stderr (snd (Sample.run "blob")) = [msg_unrecognized_format "blob"]).
Proof.
  pose proof (load_binary_status_only (P := Sample.machine)) as T.
  split; [| split].
  - destruct (T "nope" empty_binary BIN_TYPE_AUTO process_start)
      as [_ [H _]]. exact (H eq_refl).
  - destruct (T "notes.txt" empty_binary BIN_TYPE_AUTO process_start)
      as [_ [_ [H _]]]. exact (H Sample.notes_txt eq_refl eq_refl).
  - destruct (T "blob" empty_binary BIN_TYPE_AUTO process_start)
      as [_ [_ [_ [H _]]]]. exact (H Sample.blob eq_refl eq_refl eq_refl).
Defined.

Lemma bfd_init_at_most_once_witness :
  inits (snd (load_all (P := Sample.machine) Sample.session process_start))
  = 1%nat /\
  acquired (snd (load_all (P := Sample.machine) Sample.session process_start))
  = 2%nat.
Proof.
  split; [| reflexivity].
  destruct (bfd_init_at_most_once (P := Sample.machine) Sample.session)
    as [_ H].
  apply H. discriminate.
Defined.

(** ** Further properties of the Format Probe and of symbol extraction *)

Section ProbeAndSymbols.
Context {P : Platform}.

Lemma is_unknown_flavour_true (f : bfd_flavour) :
  is_unknown_flavour f = true <-> f = bfd_target_unknown_flavour.
Proof. destruct f; simpl; split; congruence. Qed.

Lemma stderr_after_probe (fname : string) (w : World) :
  stderr (snd (open_bfd fname w))
  = stderr w ++ stderr_of (probe_events fname).
Proof.
  rewrite open_bfd_spec; simpl snd.
  rewrite stderr_opened_world; simpl. now rewrite app_nil_r.
Qed.

(** X1: [open_bfd] returns a handle exactly when [bfd_openr] returned it, it
    is an object and its flavour is not the unknown one; the handle is the
    one [bfd_openr] returned.  Every NULL return has written exactly one
    diagnostic, and a successful return has written none. *)
Theorem open_bfd_contract (fname : string) (w : World) :
  (forall h, fst (open_bfd fname w) = Some h <->
             openr fname = Some h /\ is_bfd_object h = true /\
             bfd_get_flavour h <> bfd_target_unknown_flavour) /\
  (fst (open_bfd fname w) = None ->
   exists m, stderr (snd (open_bfd fname w)) = stderr w ++ [m]) /\
  (fst (open_bfd fname w) <> None ->
   stderr (snd (open_bfd fname w)) = stderr w).
Proof.
  rewrite stderr_after_probe. rewrite open_bfd_spec; simpl fst.
  unfold probe, probe_ok, probe_events.
  destruct (openr fname) as [h0 |].
  2:{ split; [| split].
      - intros h; split; [discriminate | intros [H _]; discriminate].
      - intros _; now eexists.
      - intros H; now contradiction H. }
  destruct (is_bfd_object h0) eqn:Hobj; simpl.
  2:{ split; [| split].
      - intros h; split; [discriminate |].
        intros [H [H1 _]]; inversion H; subst; congruence.
      - intros _; now eexists.
      - intros H; now contradiction H. }
  destruct (is_unknown_flavour (bfd_get_flavour h0)) eqn:Hfl; simpl.
  - apply is_unknown_flavour_true in Hfl. split; [| split].
    + intros h; split; [discriminate |].
      intros [H [_ H2]]; inversion H; subst; contradiction.
    + intros _; now eexists.
    + intros H; now contradiction H.
  - split; [| split].
    + intros h; split.
      * intros H; inversion H; subst. repeat split; try assumption.
        intros E. apply is_unknown_flavour_true in E. congruence.
      * intros [H _]; exact H.
    + discriminate.
    + intros _. now rewrite app_nil_r.
Qed.

(** X2: [open_bfd] resets the error state of libbfd exactly once when
    [bfd_check_format] accepts the file, also when it then returns NULL for
    an unknown flavour, and never when the file does not open or is not an
    object. *)
Theorem open_bfd_clears_error_state (fname : string) (w : World) :
  count is_set_error (trace (snd (open_bfd fname w)))
  = (count is_set_error (trace w)
     + match openr fname with
       | Some h => if is_bfd_object h then 1 else 0
       | None => 0
       end)%nat.
Proof.
  rewrite open_bfd_spec; simpl snd. rewrite count_opened_world.
  unfold init_events, probe_events.
  destruct (bfd_init_flag w =? 0);
    (destruct (openr fname) as [h |]; [destruct (is_bfd_object h); simpl;
       [destruct (is_unknown_flavour (bfd_get_flavour h)) |] |]);
    unfold count; simpl; lia.
Qed.

Lemma load_symbols_bfd_world (h : bfd) (bin : Binary) (w : World) :
  snd (load_symbols_bfd h bin w)
  = {| bfd_init_flag := bfd_init_flag w;
       trace := trace w ++ symbols_events h |}.
Proof.
  unfold load_symbols_bfd, symbols_events, bfd_get_symtab_upper_bound,
    bfd_canonicalize_symtab, malloc, fprintf_stderr, free, bind, ret, emit.
  destruct (symtab_upper_bound h <? 0); [reflexivity |].
  destruct (symtab_upper_bound h =? 0); simpl;
    [destruct w; simpl; now rewrite app_nil_r |].
  destruct (malloc_ok (symtab_upper_bound h)); simpl;
    [| now rewrite <- app_assoc].
  destruct (symtab h) as [tab |]; simpl.
  - destruct (Z.ltb_spec (Z.of_nat (List.length tab)) 0); [lia |]. simpl.
    now rewrite <- app_assoc.
  - now rewrite <- !app_assoc.
Qed.

(** X5: [load_symbols_bfd] calls [malloc] at most once, and on every path it
    calls [free] exactly as often as [malloc] returned a buffer: the buffer is
    released before the function returns, and nothing is freed when the
    allocation failed or was not attempted. *)
Theorem load_symbols_bfd_frees_its_buffer (h : bfd) (bin : Binary)
    (w : World) :
  exists evs,
    trace (snd (load_symbols_bfd h bin w)) = trace w ++ evs /\
    (count is_malloc evs <= 1)%nat /\
    count is_free evs = count is_buffer evs.
Proof.
  exists (symbols_events h). rewrite load_symbols_bfd_world; simpl.
  split; [reflexivity |]. unfold symbols_events, count.
  destruct (symtab_upper_bound h <? 0); [simpl; split; auto |].
  destruct (symtab_upper_bound h =? 0); [simpl; split; auto |].
  destruct (malloc_ok (symtab_upper_bound h)); simpl;
    [destruct (symtab h) |]; simpl; split; auto.
Qed.

(** X6: [load_symbols_bfd] returns 0 or -1.  When it returns -1 the Binary is
    exactly the one it was given and one diagnostic has been written; when it
    returns 0 nothing has been written to stderr. *)
Theorem load_symbols_bfd_failure_is_atomic (h : bfd) (bin : Binary)
    (w : World) :
  let r := load_symbols_bfd h bin w in
  (fst (fst r) = 0 \/ fst (fst r) = -1) /\
  (fst (fst r) = -1 ->
   snd (fst r) = bin /\ exists m, stderr (snd r) = stderr w ++ [m]) /\
  (fst (fst r) = 0 -> stderr (snd r) = stderr w).
Proof.
  cbv zeta. rewrite load_symbols_bfd_outcome, load_symbols_bfd_world.
  unfold stderr; simpl trace. rewrite stderr_of_app.
  unfold symbols_outcome, symbols_events.
  destruct (symtab_upper_bound h <? 0); simpl.
  { split; [now right |]. split; [intros _; split; eauto | discriminate]. }
  destruct (symtab_upper_bound h =? 0); simpl.
  { split; [now left |]. split; [discriminate |].
    intros _; now rewrite app_nil_r. }
  destruct (malloc_ok (symtab_upper_bound h)); simpl.
  2:{ split; [now right |]. split; [intros _; split; eauto | discriminate]. }
  destruct (symtab h) as [tab |]; simpl.
  - split; [now left |]. split; [discriminate |].
    intros _; now rewrite app_nil_r.
  - split; [now right |]. split; [intros _; split; eauto | discriminate].
Qed.

Lemma function_symbols_well_formed (tab : list asymbol) :
  Forall (fun s => s_type s = SYM_TYPE_FUN /\ 0 <= s_addr s < 2 ^ 64)
         (function_symbols tab) /\
  (List.length (function_symbols tab) <= List.length tab)%nat.
Proof.
  unfold function_symbols.
  induction tab as [| a tab [IHf IHl]]; simpl; [split; auto |].
  destruct (is_function a); simpl; split; auto; try lia.
  constructor; [| assumption]. split; [reflexivity |].
  unfold to_uint64. apply Z.mod_pos_bound. lia.
Qed.

(** X7: every symbol [load_symbols_bfd] appends has type [SYM_TYPE_FUN] and
    an address that fits [uint64_t], and it appends at most as many symbols
    as [bfd_canonicalize_symtab] reported entries. *)
Theorem appended_symbols_are_functions (h : bfd) (bin : Binary) (w : World) :
  exists new,
    symbols (snd (fst (load_symbols_bfd h bin w))) = symbols bin ++ new /\
    Forall (fun s => s_type s = SYM_TYPE_FUN /\ 0 <= s_addr s < 2 ^ 64) new /\
    Z.of_nat (List.length new) <= Z.max 0 (fst (bfd_canonicalize_symtab h)).
Proof.
  rewrite load_symbols_bfd_outcome.
  unfold symbols_outcome, bfd_canonicalize_symtab.
  assert (Nil : forall b : Binary,
             exists new : list Symbol,
               symbols b = symbols b ++ new /\
               Forall (fun s => s_type s = SYM_TYPE_FUN /\ 0 <= s_addr s < 2 ^ 64)
                      new /\
               Z.of_nat (List.length new)
               <= Z.max 0 (fst match symtab h with
                               | Some tab => (Z.of_nat (List.length tab), tab)
                               | None => (-1, [])
                               end)).
  { intros b. exists []. rewrite app_nil_r. repeat split; auto.
    simpl. lia. }
  destruct (symtab_upper_bound h <? 0); [apply Nil |].
  destruct (symtab_upper_bound h =? 0); [apply Nil |].
  destruct (negb (malloc_ok (symtab_upper_bound h))); [apply Nil |].
  destruct (symtab h) as [tab |]; [| apply Nil].
  exists (function_symbols tab).
  destruct (function_symbols_well_formed tab) as [Hf Hl].
  split; [reflexivity |]. split; [exact Hf |]. simpl. lia.
Qed.

(** X8: [load_symbols_bfd] does not look at the symbols the Binary already
    holds.  Run a second time on the Binary it has just filled, it appends
    the same symbols once more. *)
Theorem load_symbols_bfd_twice_duplicates (h : bfd) (bin : Binary)
    (w w' : World) :
  let b1 := snd (fst (load_symbols_bfd h bin w)) in
  let b2 := snd (fst (load_symbols_bfd h b1 w')) in
  exists new,
    symbols b1 = symbols bin ++ new /\
    symbols b2 = symbols bin ++ new ++ new.
Proof.
  cbv zeta. rewrite !load_symbols_bfd_outcome. unfold symbols_outcome.
  destruct (symtab_upper_bound h <? 0);
    [exists []; now rewrite !app_nil_r |].
  destruct (symtab_upper_bound h =? 0);
    [exists []; now rewrite !app_nil_r |].
  destruct (negb (malloc_ok (symtab_upper_bound h)));
    [exists []; now rewrite !app_nil_r |].
  destruct (symtab h) as [tab |]; [| exists []; now rewrite !app_nil_r].
  exists (function_symbols tab); simpl. split; [reflexivity |].
  now rewrite app_assoc.
Qed.

End ProbeAndSymbols.

(** ** Further properties of the orchestrator *)

Section LoadProperties.
Context {P : Platform}.

Lemma load_dynsym_bfd_fst (h : bfd) (bin : Binary) (w : World) :
  fst (load_dynsym_bfd h bin w) = dynsym_outcome h bin.
Proof.
  unfold load_dynsym_bfd, dynsym_outcome, malloc, free, bind, ret, emit.
  destruct (dynamic_symtab_upper_bound h <? 0); [reflexivity |].
  destruct (dynamic_symtab_upper_bound h =? 0); simpl; [reflexivity |].
  destruct (malloc_ok (dynamic_symtab_upper_bound h)); simpl; [| reflexivity].
  destruct (dynamic_symtab h) as [tab |]; simpl; [| reflexivity].
  now rewrite filter_symbols_whole.
Qed.

(** The status and the Binary of a load do not involve the world. *)
Lemma load_binary_bfd_outcome (fname : string) (bin : Binary)
    (ty : BinaryType) (w : World) :
  fst (load_binary_bfd fname bin ty w) = load_outcome fname bin.
Proof.
  unfold load_binary_bfd, load_outcome, bind. rewrite open_bfd_spec.
  destruct (probe fname) as [h |]; [| reflexivity].
  fold (with_general_information fname h bin). cbv zeta.
  destruct (switch_flavour _ _) as [b2 |]; [| reflexivity].
  destruct (switch_mach _ _) as [b4 |]; [| reflexivity].
  pose proof (load_symbols_bfd_outcome h b4 (opened_world w fname [])) as R1.
  destruct (load_symbols_bfd h b4 (opened_world w fname [])) as [r1 w1].
  simpl in R1; subst r1.
  pose proof (load_dynsym_bfd_fst h (snd (symbols_outcome h b4)) w1) as R2.
  destruct (load_dynsym_bfd h (snd (symbols_outcome h b4)) w1) as [r2 w2].
  simpl in R2; subst r2.
  pose proof (load_sections_bfd_outcome h
                (snd (dynsym_outcome h (snd (symbols_outcome h b4)))) w2) as R3.
  destruct (load_sections_bfd h
              (snd (dynsym_outcome h (snd (symbols_outcome h b4)))) w2)
    as [r3 w3].
  simpl in R3; subst r3.
  now destruct (section_table h).
Qed.

(** X9: the status [load_binary] returns and the Binary it leaves depend on
    the path and on the Binary passed in only: neither on what the process
    did before (the init flag, earlier loads), nor on the [type] argument,
    which the loader never reads.  Loading the same file twice into equal
    Binaries gives equal results. *)
Theorem load_result_ignores_process_state (fname : string) (bin : Binary)
    (ty ty' : BinaryType) (w w' : World) :
  fst (load_binary fname bin ty w) = fst (load_binary fname bin ty' w').
Proof.
  unfold load_binary. now rewrite !load_binary_bfd_outcome.
Qed.

Lemma quiet_not_openr (e : event) : quiet e = true -> is_openr e = false.
Proof. now destruct e. Qed.

Lemma count_init_events (p : event -> bool) (w : World) :
  p ev_bfd_init = false -> count p (init_events w) = 0%nat.
Proof.
  intros Hp. unfold init_events.
  destruct (bfd_init_flag w =? 0); [rewrite count_cons, Hp |]; reflexivity.
Qed.

(** The events of a load after [open_bfd]: nothing when the probe failed,
    otherwise quiet events and then the [bfd_close] of the handle. *)
Lemma load_binary_bfd_world_shape (fname : string) (bin : Binary)
    (ty : BinaryType) (w : World) :
  match probe fname with
  | None => snd (load_binary_bfd fname bin ty w) = opened_world w fname []
  | Some h =>
      exists body,
        snd (load_binary_bfd fname bin ty w)
        = opened_world w fname (body ++ [ev_bfd_close h]) /\
        forallb quiet body = true
  end.
Proof.
  pose proof (load_binary_bfd_cases fname bin ty w) as C.
  destruct (probe fname) as [h |]; [| now rewrite C].
  cbv zeta in C.
  destruct (switch_flavour _ _) as [b2 |].
  2:{ eexists [_]. rewrite C. now split. }
  destruct (switch_mach _ _) as [b4 |].
  2:{ eexists [_]. rewrite C. now split. }
  destruct C as [final [new [body [E [Q _]]]]].
  exists body. rewrite E. now split.
Qed.

(** X3: every load calls [bfd_openr] exactly once.  When [open_bfd] fails
    the load closes nothing; when it returns a handle, that handle is the one
    [bfd_openr] returned, [bfd_close] is called on it and on nothing else,
    once, and it is the last thing the load does. *)
Theorem load_closes_its_own_handle_last (fname : string) (bin : Binary)
    (ty : BinaryType) (w : World) :
  exists evs,
    trace (snd (load_binary fname bin ty w)) = trace w ++ evs /\
    count is_openr evs = 1%nat /\
    match fst (open_bfd fname w) with
    | None => count is_close evs = 0%nat
    | Some h =>
        openr fname = Some h /\
        exists before,
          evs = before ++ [ev_bfd_close h] /\ count is_close before = 0%nat
    end.
Proof.
  unfold load_binary. rewrite open_bfd_spec; simpl fst.
  pose proof (load_binary_bfd_world_shape fname bin ty w) as S.
  pose proof (probe_events_quiet fname) as Qp.
  destruct (probe fname) as [h |] eqn:Hp.
  - destruct S as [body [-> Q]].
    exists (init_events w ++ ev_bfd_openr fname (openr fname)
            :: probe_events fname ++ body ++ [ev_bfd_close h]).
    split; [reflexivity |]. split.
    + rewrite count_app, count_cons, !count_app.
      rewrite (count_init_events is_openr) by reflexivity.
      rewrite (count_quiet is_openr _ quiet_not_openr Qp).
      now rewrite (count_quiet is_openr _ quiet_not_openr Q).
    + split; [apply (probe_Some _ _ Hp) |].
      exists (init_events w ++ ev_bfd_openr fname (openr fname)
              :: probe_events fname ++ body).
      split.
      * rewrite <- app_assoc; simpl. now rewrite <- app_assoc.
      * rewrite count_app, count_cons, count_app.
        rewrite (count_init_events is_close) by reflexivity.
        rewrite (count_quiet is_close _ quiet_not_close Qp).
        now rewrite (count_quiet is_close _ quiet_not_close Q).
  - rewrite S.
    exists (init_events w ++ ev_bfd_openr fname (openr fname)
            :: probe_events fname ++ []).
    split; [reflexivity |]. rewrite app_nil_r.
    rewrite !count_app, !count_cons.
    rewrite (count_init_events is_openr), (count_init_events is_close)
      by reflexivity.
    rewrite (count_quiet is_openr _ quiet_not_openr Qp).
    now rewrite (count_quiet is_close _ quiet_not_close Qp).
Qed.

(** X4: over any sequence of loads, started in any world, the handles
    obtained exceed the handles released by exactly the number of requests
    whose file [bfd_openr] opened and [open_bfd] rejected.  No load releases
    more than it obtained. *)
Theorem session_handle_accounting
    (calls : list (string * Binary * BinaryType)) :
  forall w,
    let w' := snd (load_all calls w) in
    (acquired w' + released w
     = released w' + acquired w
       + List.length (filter rejected_by_probe calls))%nat.
Proof.
  cbv zeta.
  induction calls as [| [[fname bin] ty] rest IH]; intros w;
    [simpl; lia |].
  rewrite load_all_cons_world.
  specialize (IH (snd (load_binary fname bin ty w))).
  destruct (load_binary_bfd_handle_balance fname bin ty w) as [Ha Hr].
  fold (load_binary fname bin ty w) in Ha, Hr.
  cbn [filter]. unfold rejected_by_probe at 1; cbn [fst].
  unfold probe in Hr.
  destruct (openr fname) as [h |]; [destruct (probe_ok h) |];
    cbn [negb List.length]; lia.
Qed.

(** X10: when [load_binary] returns 0, [bfd_openr] returned an object
    handle, and the Binary describes that handle exactly: the filename is the
    path, the type name is the name of the target vector, the architecture
    name is the printable name, the type is ELF for the ELF flavour and PE
    for the COFF flavour, the architecture is X86, and bits are 32 for
    [bfd_mach_i386_i386] and 64 for [bfd_mach_x86_64]. *)
Theorem successful_load_describes_handle (fname : string) (bin : Binary)
    (ty : BinaryType) (w : World) :
  fst (fst (load_binary fname bin ty w)) = 0 ->
  exists h,
    openr fname = Some h /\ is_bfd_object h = true /\
    let b := snd (fst (load_binary fname bin ty w)) in
    filename b = fname /\
    type_str b = target_name (xvec h) /\
    arch_str b = printable_name (bfd_get_arch_info h) /\
    ((bfd_get_flavour h = bfd_target_elf_flavour /\ type b = BIN_TYPE_ELF) \/
     (bfd_get_flavour h = bfd_target_coff_flavour /\ type b = BIN_TYPE_PE)) /\
    arch b = ARCH_X86 /\
    ((mach (bfd_get_arch_info h) = bfd_mach_i386_i386 /\ bits b = 32) \/
     (mach (bfd_get_arch_info h) = bfd_mach_x86_64 /\ bits b = 64)).
Proof.
  unfold load_binary. intros H0.
  pose proof (load_binary_bfd_cases fname bin ty w) as C.
  destruct (probe fname) as [h |] eqn:Hp;
    [| rewrite C in H0; discriminate].
  cbv zeta in C.
  destruct (switch_flavour _ _) as [b2 |] eqn:Hf;
    [| rewrite C in H0; discriminate].
  destruct (switch_mach _ _) as [b4 |] eqn:Hm;
    [| rewrite C in H0; discriminate].
  destruct C as [final [new [body [E [_ [Hh _]]]]]].
  destruct Hh as [H1 [H2 [H3 [H4 [H5 [H6 H7]]]]]].
  destruct (probe_Some _ _ Hp) as [Ho Hok].
  unfold probe_ok in Hok. apply andb_prop in Hok as [Hobj _].
  exists h. split; [exact Ho |]. split; [exact Hobj |].
  cbv zeta. rewrite E; simpl. rewrite H1, H2, H3, H4, H5, H6.
  assert (T : (bfd_get_flavour h = bfd_target_elf_flavour /\
               b2 = set_type BIN_TYPE_ELF (with_general_information fname h bin))
              \/ (bfd_get_flavour h = bfd_target_coff_flavour /\
                  b2 = set_type BIN_TYPE_PE (with_general_information fname h bin)))
    by exact (switch_flavour_type _ _ _ Hf).
  destruct (switch_mach_cases (mach (bfd_get_arch_info h))
              (set_arch_str (printable_name (bfd_get_arch_info h)) b2))
    as [[M Em] | [[M Em] | [_ [_ Em]]]];
    rewrite Em in Hm; inversion Hm; subst b4; simpl;
    destruct T as [[F ->] | [F ->]]; simpl; auto 10.
Qed.

(** X11: a load that enters [open_bfd] with the init flag at 0 calls
    [bfd_init] once and leaves the flag at 1; with any other value of the flag
    it does not call [bfd_init] and leaves the flag as it is.  The flag is
    never 0 after a load, whether the load succeeded or not. *)
Theorem load_initialises_lazily (fname : string) (bin : Binary)
    (ty : BinaryType) (w : World) :
  let w' := snd (load_binary fname bin ty w) in
  (bfd_init_flag w = 0 ->
   inits w' = (inits w + 1)%nat /\ bfd_init_flag w' = 1) /\
  (bfd_init_flag w <> 0 ->
   inits w' = inits w /\ bfd_init_flag w' = bfd_init_flag w) /\
  bfd_init_flag w' <> 0.
Proof.
  cbv zeta. unfold load_binary.
  destruct (load_binary_bfd_world fname bin ty w) as [more [-> [Hi _]]].
  unfold inits. rewrite count_opened_world, Hi.
  rewrite (count_quiet is_init _ quiet_not_init (probe_events_quiet fname)).
  unfold opened_world, flag_after, init_events; simpl.
  destruct (Z.eqb_spec (bfd_init_flag w) 0) as [E | N].
  - split; [intros _; split; [unfold count; simpl; lia | reflexivity] |].
    split; [intros H; contradiction | discriminate].
  - split; [intros H; contradiction |].
    split; [intros _; split; [unfold count; simpl; lia | reflexivity] |].
    exact N.
Qed.

(** X12: a load that stops before the extractors (the probe fails, or one of
    the two switches takes its default label) has called neither [malloc]
    nor [free], and the symbols and sections of the Binary are the ones the
    caller passed. *)
Theorem early_failure_touches_no_table (fname : string) (bin : Binary)
    (ty : BinaryType) (w : World) :
  (fst (open_bfd fname w) = None \/
   exists h, fst (open_bfd fname w) = Some h /\
             ((bfd_get_flavour h <> bfd_target_elf_flavour /\
               bfd_get_flavour h <> bfd_target_coff_flavour) \/
              (mach (bfd_get_arch_info h) <> bfd_mach_i386_i386 /\
               mach (bfd_get_arch_info h) <> bfd_mach_x86_64))) ->
  let r := load_binary fname bin ty w in
  fst (fst r) = -1 /\
  symbols (snd (fst r)) = symbols bin /\
  sections (snd (fst r)) = sections bin /\
  exists evs, trace (snd r) = trace w ++ evs /\
              count is_malloc evs = 0%nat /\ count is_free evs = 0%nat.
Proof.
  assert (Qm : forall fn, count is_malloc (probe_events fn) = 0%nat)
    by (intros fn; unfold probe_events;
        destruct (openr fn) as [h |]; [destruct (is_bfd_object h); simpl;
          [destruct (is_unknown_flavour (bfd_get_flavour h)) |] |];
        reflexivity).
  assert (Qf : forall fn, count is_free (probe_events fn) = 0%nat)
    by (intros fn; unfold probe_events;
        destruct (openr fn) as [h |]; [destruct (is_bfd_object h); simpl;
          [destruct (is_unknown_flavour (bfd_get_flavour h)) |] |];
        reflexivity).
  assert (Done : forall b more,
             count is_malloc more = 0%nat -> count is_free more = 0%nat ->
             symbols b = symbols bin -> sections b = sections bin ->
             load_binary_bfd fname bin ty w = (-1, b, opened_world w fname more) ->
             let r := load_binary fname bin ty w in
             fst (fst r) = -1 /\
             symbols (snd (fst r)) = symbols bin /\
             sections (snd (fst r)) = sections bin /\
             exists evs, trace (snd r) = trace w ++ evs /\
                         count is_malloc evs = 0%nat /\
                         count is_free evs = 0%nat).
  { intros b more Hm Hf Hs Hc E. cbv zeta. unfold load_binary. rewrite E; simpl.
    repeat (split; [assumption || reflexivity |]).
    eexists; split; [reflexivity |].
    rewrite !count_app, !count_cons, !count_app, Hm, Hf, Qm, Qf.
    rewrite !count_init_events by reflexivity. now split. }
  rewrite open_bfd_spec; simpl fst. intros H.
  pose proof (load_binary_bfd_cases fname bin ty w) as C.
  destruct (probe fname) as [h |] eqn:Hp.
  2:{ apply (Done bin []); auto. }
  destruct H as [H | [h' [Hh' H]]]; [discriminate |].
  inversion Hh'; subst h'. cbv zeta in C. unfold bfd_get_flavour in H.
  destruct (switch_flavour _ _) as [b2 |] eqn:Hf.
  2:{ eapply Done; [| | | | exact C]; reflexivity. }
  destruct (switch_mach_cases (mach (bfd_get_arch_info h))
              (set_arch_str (printable_name (bfd_get_arch_info h)) b2))
    as [[M Em] | [[M Em] | [_ [_ Em]]]].
  - destruct H as [[N1 N2] | [N1 N2]]; [| contradiction].
    apply switch_flavour_type in Hf as [[F _] | [F _]]; contradiction.
  - destruct H as [[N1 N2] | [N1 N2]]; [| contradiction].
    apply switch_flavour_type in Hf as [[F _] | [F _]]; contradiction.
  - rewrite Em in C.
    apply switch_flavour_type in Hf as [[_ ->] | [_ ->]];
      (eapply Done; [| | | | exact C]; reflexivity).
Qed.

End LoadProperties.

(** *** The further properties at concrete inputs *)

Lemma open_bfd_contract_witness :
  fst (open_bfd (P := Sample.machine) "prog" process_start)
  = Some Sample.prog_elf /\
  exists m, stderr (snd (open_bfd (P := Sample.machine) "notes.txt"
                           process_start)) = [m].
Proof.
  split.
  - apply (open_bfd_contract (P := Sample.machine) "prog" process_start).
    split; [reflexivity | split; [reflexivity | discriminate]].
  - apply (open_bfd_contract (P := Sample.machine) "notes.txt" process_start).
    reflexivity.
Defined.

Lemma load_symbols_bfd_failure_is_atomic_witness :
  snd (fst (load_symbols_bfd (P := no_memory) Sample.prog_elf empty_binary
              process_start)) = empty_binary /\
  stderr (snd (load_symbols_bfd (P := Sample.machine) Sample.prog_elf
                 empty_binary process_start)) = [].
Proof.
  split.
  - apply (load_symbols_bfd_failure_is_atomic (P := no_memory) Sample.prog_elf
             empty_binary process_start).
    reflexivity.
  - apply (load_symbols_bfd_failure_is_atomic (P := Sample.machine)
             Sample.prog_elf empty_binary process_start).
    reflexivity.
Defined.

Lemma successful_load_describes_handle_witness :
  exists h,
    openr (Platform := Sample.machine) "prog.exe" = Some h /\
    is_bfd_object h = true /\
    let b := snd (fst (Sample.run "prog.exe")) in
    filename b = "prog.exe" /\
    type_str b = target_name (xvec h) /\
    arch_str b = printable_name (bfd_get_arch_info h) /\
    ((bfd_get_flavour h = bfd_target_elf_flavour /\ type b = BIN_TYPE_ELF) \/
     (bfd_get_flavour h = bfd_target_coff_flavour /\ type b = BIN_TYPE_PE)) /\
    arch b = ARCH_X86 /\
    ((mach (bfd_get_arch_info h) = 4 /\ bits b = 32) \/
     (mach (bfd_get_arch_info h) = 8 /\ bits b = 64)).
Proof.
  apply (successful_load_describes_handle (P := Sample.machine) "prog.exe"
           empty_binary BIN_TYPE_AUTO process_start).
  reflexivity.
Defined.

Lemma load_initialises_lazily_witness :
  inits (snd (Sample.run "nope")) = 1%nat /\
  bfd_init_flag (snd (Sample.run "nope")) = 1.
Proof.
  apply (load_initialises_lazily (P := Sample.machine) "nope" empty_binary
           BIN_TYPE_AUTO process_start).
  reflexivity.
Defined.

Lemma early_failure_touches_no_table_witness :
  fst (fst (Sample.run "prog.arm")) = -1 /\
  symbols (snd (fst (Sample.run "prog.arm"))) = [] /\
  sections (snd (fst (Sample.run "prog.arm"))) = [] /\
  exists evs, trace (snd (Sample.run "prog.arm")) = [] ++ evs /\
              count is_malloc evs = 0%nat /\ count is_free evs = 0%nat.
Proof.
  apply (early_failure_touches_no_table (P := Sample.machine) "prog.arm"
           empty_binary BIN_TYPE_AUTO process_start).
  right. exists Sample.prog_arm. split; [reflexivity |].
  right. split; vm_compute; discriminate.
Defined.
